(** * Tonnet Browser: supervision, settings and validation layer

    A shallow embedding of the main-process code of the browser shell:
    the spawn-argument validators, the request validators and the rate
    limiter, the settings store, the storage HTTP client and the two
    process managers.  Every definition follows the TypeScript source
    it is named after; run-time values are JavaScript values, so the
    dynamic checks of the source ([typeof], truthiness, [Array.isArray])
    are written out. *)

From Stdlib Require Import Bool List ZArith QArith Lia.
From Stdlib Require Import Strings.Ascii Strings.String DecimalString.
Import ListNotations.

Set Warnings "-register-all".

Local Open Scope string_scope.
Local Open Scope Z_scope.

(** ** JavaScript values *)

Module JS.

(** A JavaScript number: a finite value (doubles are rationals), the
    two infinities, or NaN. *)
Inductive number : Type :=
| Finite (q : Q)
| PosInf
| NegInf
| NaN.

Definition of_Z (z : Z) : number := Finite (inject_Z z).

(** [a < b] on numbers; every comparison with NaN is false. *)
Definition ltb (a b : number) : bool :=
  match a, b with
  | NaN, _ | _, NaN => false
  | Finite x, Finite y => negb (Qle_bool y x)
  | Finite _, PosInf => true
  | Finite _, NegInf => false
  | NegInf, NegInf => false
  | NegInf, _ => true
  | PosInf, _ => false
  end.

(** [a > b] is [b < a]. *)
Definition gtb (a b : number) : bool := ltb b a.

(** Values as the code meets them: results of [JSON.parse], arguments
    received over IPC, settings fields.  An object is the list of its
    own properties; a property read takes the first binding. *)
Inductive value : Type :=
| VUndefined
| VNull
| VBool (b : bool)
| VNum (n : number)
| VStr (s : string)
| VArr (items : list value)
| VObj (props : list (string * value)).

Definition object : Type := list (string * value).

Inductive type_tag : Type :=
| TUndefined | TObject | TBoolean | TNumber | TString.

(** The [typeof] operator. *)
Definition typeof (v : value) : type_tag :=
  match v with
  | VUndefined => TUndefined
  | VNull | VArr _ | VObj _ => TObject
  | VBool _ => TBoolean
  | VNum _ => TNumber
  | VStr _ => TString
  end.

Definition type_tag_eqb (a b : type_tag) : bool :=
  match a, b with
  | TUndefined, TUndefined | TObject, TObject | TBoolean, TBoolean
  | TNumber, TNumber | TString, TString => true
  | _, _ => false
  end.

Definition is_undefined (v : value) : bool :=
  match v with VUndefined => true | _ => false end.

Definition is_null (v : value) : bool :=
  match v with VNull => true | _ => false end.

Definition isArray (v : value) : bool :=
  match v with VArr _ => true | _ => false end.

Definition is_zero (n : number) : bool :=
  match n with Finite q => Qeq_bool q 0 | _ => false end.

(** ToBoolean. *)
Definition truthy (v : value) : bool :=
  match v with
  | VUndefined | VNull => false
  | VBool b => b
  | VNum NaN => false
  | VNum n => negb (is_zero n)
  | VStr s => negb (String.eqb s "")
  | VArr _ | VObj _ => true
  end.

Fixpoint lookup (k : string) (o : object) : option value :=
  match o with
  | [] => None
  | (k', v) :: rest => if String.eqb k k' then Some v else lookup k rest
  end.

(** [o.k] for a property name that no prototype defines: the own
    property, or [undefined]. *)
Definition prop (o : object) (k : string) : value :=
  match lookup k o with Some v => v | None => VUndefined end.

(** [v.k] on a value that is not null or undefined. *)
Definition get (v : value) (k : string) : value :=
  match v with
  | VObj o => prop o k
  | _ => VUndefined
  end.

(** [o[k] = v]: overwrite in place, or add at the end. *)
Fixpoint set (k : string) (v : value) (o : object) : object :=
  match o with
  | [] => [(k, v)]
  | (k', v') :: rest =>
      if String.eqb k k' then (k, v) :: rest else (k', v') :: set k v rest
  end.

(** [{ ...a, ...b }] *)
Definition spread (a b : object) : object :=
  fold_left (fun acc kv => set (fst kv) (snd kv) acc) b a.

(** [Object.keys] *)
Definition keys (o : object) : list string := map fst o.

(** [xs.includes(s)] for an array of string literals. *)
Definition includes_str (xs : list string) (s : string) : bool :=
  existsb (String.eqb s) xs.

(** [xs.includes(v)] for an array of string literals and any value. *)
Definition includes (xs : list string) (v : value) : bool :=
  match v with VStr s => includes_str xs s | _ => false end.

(** [s.startsWith(p)] *)
Definition startsWith (s p : string) : bool := String.prefix p s.

(** [s.includes(p)] *)
Fixpoint str_includes (s p : string) : bool :=
  String.prefix p s ||
  match s with
  | EmptyString => false
  | String _ rest => str_includes rest p
  end.

(** What a call produces: a value, or a thrown error (a rejected
    promise for an [async] function). *)
Inductive result (A : Type) : Type :=
| Ok (a : A)
| Throw (e : string).
Arguments Ok {A} a.
Arguments Throw {A} e.

Definition bind {A B} (r : result A) (k : A -> result B) : result B :=
  match r with
  | Ok a => k a
  | Throw e => Throw e
  end.

Definition throws {A} (r : result A) : bool :=
  match r with Ok _ => false | Throw _ => true end.

End JS.

Import JS.

(** ** src/main/utils/validators.ts *)

Module Validators.

(** [validatePort(port, defaultPort = 8080)] *)
Definition validatePort (port : value) (defaultPort : number) : number :=
  match port with
  | VNum p =>
      if ltb p (of_Z 1024) || gtb p (of_Z 65535) then defaultPort else p
  | _ => defaultPort
  end.

(** The default of the second parameter; the proxy manager relies on
    it, the storage manager passes 5555. *)
Definition defaultPort : number := of_Z 8080.
Definition storageDefaultPort : number := of_Z 5555.

(** [validateVerbosity(verbosity, defaultVerbosity = 2)] *)
Definition validateVerbosity (verbosity : value) (defaultVerbosity : number)
  : number :=
  match verbosity with
  | VNum v =>
      if ltb v (of_Z 0) || gtb v (of_Z 5) then defaultVerbosity else v
  | _ => defaultVerbosity
  end.

Definition defaultVerbosity : number := of_Z 2.

(** A port the spawned process can be given: a number in
    [1024, 65535]. *)
Definition port_in_range (v : value) : Prop :=
  exists q, v = VNum (Finite q) /\ (inject_Z 1024 <= q)%Q /\ (q <= inject_Z 65535)%Q.

End Validators.

(** ** The URL constructor of the platform

    [new URL(input)] is the WHATWG parser of the runtime, not code of
    this repository.  [isValidNavigationUrl] below takes it as a
    parameter; this module is an executable model of the part the
    validator depends on (does the constructor throw, and what is
    [protocol]), on which the validator is run at concrete inputs.  The
    model follows the parser's scheme, authority, host, port and file
    host states for an input without base URL.  Hosts are checked for
    forbidden code points only: IDNA mapping, percent-decoding and the
    syntax of IPv4 and IPv6 literals are not modelled, so the model is
    exact for hosts written with ASCII letters, digits, [-] and [.]
    whose last label is not a number. *)

Module URL.

Definition code (c : ascii) : N := N_of_ascii c.

Definition between (lo hi : N) (c : ascii) : bool :=
  ((lo <=? code c) && (code c <=? hi))%N.

Definition is_digit : ascii -> bool := between 48 57.
Definition is_upper : ascii -> bool := between 65 90.
Definition is_lower : ascii -> bool := between 97 122.
Definition is_alpha (c : ascii) : bool := is_upper c || is_lower c.

Definition to_lower (c : ascii) : ascii :=
  if is_upper c then ascii_of_N (code c + 32) else c.

Definition is_char (x : ascii) (c : ascii) : bool := Ascii.eqb c x.

Definition is_c0_or_space (c : ascii) : bool := (code c <=? 32)%N.

Definition is_tab_or_newline (c : ascii) : bool :=
  ((code c =? 9) || (code c =? 10) || (code c =? 13))%N.

Fixpoint drop_while (p : ascii -> bool) (l : list ascii) : list ascii :=
  match l with
  | [] => []
  | c :: rest => if p c then drop_while p rest else l
  end.

(** Leading and trailing C0 controls and spaces are stripped, tabs
    and newlines are removed everywhere. *)
Definition preprocess (input : string) : list ascii :=
  let l := drop_while is_c0_or_space (list_ascii_of_string input) in
  let l := rev (drop_while is_c0_or_space (rev l)) in
  filter (fun c => negb (is_tab_or_newline c)) l.

Definition is_scheme_char (c : ascii) : bool :=
  is_alpha c || is_digit c || is_char "+" c || is_char "-" c || is_char "." c.

(** Scheme state: the lower-cased scheme and what follows its colon. *)
Fixpoint scan_scheme (l : list ascii) : option (list ascii * list ascii) :=
  match l with
  | [] => None
  | c :: rest =>
      if is_scheme_char c then
        match scan_scheme rest with
        | Some (sch, r) => Some (to_lower c :: sch, r)
        | None => None
        end
      else if is_char ":" c then Some ([], rest)
      else None
  end.

(** Scheme start state; without a base URL a missing scheme is a
    failure. *)
Definition parse_scheme (l : list ascii) : option (string * list ascii) :=
  match l with
  | c :: _ =>
      if is_alpha c then
        match scan_scheme l with
        | Some (sch, r) => Some (string_of_list_ascii sch, r)
        | None => None
        end
      else None
  | [] => None
  end.

Definition special_schemes : list string :=
  ["ftp"; "file"; "http"; "https"; "ws"; "wss"].

Definition is_slash (special : bool) (c : ascii) : bool :=
  is_char "/" c || (special && is_char "\" c).

Definition ends_authority (special : bool) (c : ascii) : bool :=
  is_slash special c || is_char "?" c || is_char "#" c.

Fixpoint take_until (p : ascii -> bool) (l : list ascii) : list ascii :=
  match l with
  | [] => []
  | c :: rest => if p c then [] else c :: take_until p rest
  end.

(** Was an [@] seen, and the part after the last one. *)
Fixpoint after_last_at (l : list ascii) : bool * list ascii :=
  match l with
  | [] => (false, [])
  | c :: rest =>
      let (seen, h) := after_last_at rest in
      if seen then (true, h)
      else if is_char "@" c then (true, rest)
      else (false, c :: h)
  end.

(** Host state: the host runs to the first colon outside brackets. *)
Fixpoint split_host (inside : bool) (l : list ascii)
  : list ascii * option (list ascii) :=
  match l with
  | [] => ([], None)
  | c :: rest =>
      if is_char ":" c && negb inside then ([], Some rest)
      else
        let inside' :=
          if is_char "[" c then true
          else if is_char "]" c then false else inside in
        let (h, p) := split_host inside' rest in
        (c :: h, p)
  end.

Definition digits_value (l : list ascii) : N :=
  fold_left (fun acc c => (acc * 10 + (code c - 48))%N) l 0%N.

(** Port state: digits only, at most 65535. *)
Definition port_ok (p : option (list ascii)) : bool :=
  match p with
  | None => true
  | Some ds => forallb is_digit ds && (digits_value ds <=? 65535)%N
  end.

Definition forbidden_host_chars : list ascii :=
  list_ascii_of_string " #/:<>?@[\]^|".

Definition forbidden_host_code_point (c : ascii) : bool :=
  ((code c =? 0) || (code c =? 9) || (code c =? 10) || (code c =? 13))%N
  || existsb (Ascii.eqb c) forbidden_host_chars.

Definition forbidden_domain_code_point (c : ascii) : bool :=
  forbidden_host_code_point c
  || (code c <=? 31)%N || is_char "%" c || (code c =? 127)%N.

Definition ends_with (x : ascii) (l : list ascii) : bool :=
  match rev l with
  | c :: _ => is_char x c
  | [] => false
  end.

(** Host parsing of a host that is not empty: a bracketed literal must
    close; a domain (special schemes) or an opaque host (the others)
    holds no forbidden code point. *)
Definition host_ok (special : bool) (h : list ascii) : bool :=
  match h with
  | [] => false
  | c :: _ =>
      if is_char "[" c then ends_with "]" h
      else if special then
        forallb (fun x => negb (forbidden_domain_code_point x)) h
      else forallb (fun x => negb (forbidden_host_code_point x)) h
  end.

(** Authority, host and port states.  An empty host is a failure when
    credentials or a port come with it, and for a special scheme. *)
Definition authority_ok (special : bool) (l : list ascii) : bool :=
  let auth := take_until (ends_authority special) l in
  let (seen_at, hostport) := after_last_at auth in
  let (h, p) := split_host false hostport in
  match h with
  | [] =>
      negb special && negb seen_at
      && match p with Some _ => false | None => true end
  | _ => host_ok special h && port_ok p
  end.

Definition is_drive_letter (h : list ascii) : bool :=
  match h with
  | [a; b] => is_alpha a && (is_char ":" b || is_char "|" b)
  | _ => false
  end.

(** File, file slash and file host states. *)
Definition file_ok (rest : list ascii) : bool :=
  match rest with
  | a :: b :: r =>
      if is_slash true a && is_slash true b then
        let h := take_until (ends_authority true) r in
        match h with
        | [] => true
        | _ => is_drive_letter h || host_ok true h
        end
      else true
  | _ => true
  end.

(** [new URL(input).protocol], or [None] when the constructor
    throws. *)
Definition protocol (input : string) : option string :=
  match parse_scheme (preprocess input) with
  | None => None
  | Some (scheme, rest) =>
      let ok :=
        if String.eqb scheme "file" then file_ok rest
        else if includes_str special_schemes scheme then
          authority_ok true (drop_while (is_slash true) rest)
        else
          match rest with
          | a :: b :: r =>
              if is_char "/" a && is_char "/" b then authority_ok false r
              else true
          | _ => true
          end in
      if ok then Some (scheme ++ ":") else None
  end.

End URL.

(** ** src/main/ipc/validation.ts *)

Module Validation.

Record UrlCheck : Type := { valid : bool; error : option string }.

Definition accepted : UrlCheck := {| valid := true; error := None |}.
Definition rejected (msg : string) : UrlCheck :=
  {| valid := false; error := Some msg |}.

Definition ALLOWED_SCHEMES : list string := ["http:"; "https:"; "ton:"].
Definition DANGEROUS_SCHEMES : list string :=
  ["javascript:"; "data:"; "file:"; "vbscript:"].

Section NavigationUrl.

(** [new URL(s).protocol]; [None] when the constructor throws. *)
Variable URL_protocol : string -> option string.

Definition urlToParse (url : string) : string :=
  if negb (str_includes url "://") then "http://" ++ url else url.

Definition isValidNavigationUrl (url : string) : UrlCheck :=
  if startsWith url "ton://" then accepted
  else
    match URL_protocol (urlToParse url) with
    | Some protocol =>
        if negb (includes_str ALLOWED_SCHEMES protocol) then
          rejected ("Blocked scheme: " ++ protocol)
        else if includes_str DANGEROUS_SCHEMES protocol then
          rejected ("Dangerous scheme: " ++ protocol)
        else accepted
    | None => rejected "Invalid URL format"
    end.

End NavigationUrl.

(** The character class [[a-fA-F0-9]]. *)
Definition is_hex (c : ascii) : bool :=
  URL.between 97 102 c || URL.between 65 70 c || URL.between 48 57 c.

(** [[a-fA-F0-9]{n}] at the head of [s]: what is left of [s]. *)
Fixpoint match_hex_times (n : nat) (s : string) : option string :=
  match n with
  | O => Some s
  | S n' =>
      match s with
      | String c rest => if is_hex c then match_hex_times n' rest else None
      | EmptyString => None
      end
  end.

(** [/^[a-fA-F0-9]{64}$/.test(s)]; without the [m] flag [$] is the
    end of the input. *)
Definition bagid_regex_test (s : string) : bool :=
  match match_hex_times 64 s with
  | Some EmptyString => true
  | _ => false
  end.

Definition isValidBagId (bagId : value) : bool :=
  match bagId with
  | VStr s => bagid_regex_test s
  | _ => false
  end.

(** [class RateLimiter]; timestamps are [Date.now()] milliseconds. *)
Record RateLimiter : Type := {
  calls : list Z;
  maxCalls : Z;
  windowMs : Z
}.

Definition new_RateLimiter (maxCalls windowMs : Z) : RateLimiter :=
  {| calls := []; maxCalls := maxCalls; windowMs := windowMs |}.

(** [check()], with the clock reading [now] it takes. *)
Definition check (now : Z) (rl : RateLimiter) : bool * RateLimiter :=
  let kept := filter (fun t => now - t <? windowMs rl) (calls rl) in
  if Z.of_nat (List.length kept) >=? maxCalls rl then
    (false, {| calls := kept; maxCalls := maxCalls rl; windowMs := windowMs rl |})
  else
    (true, {| calls := kept ++ [now]; maxCalls := maxCalls rl;
              windowMs := windowMs rl |}).

(** A limiter of [maxCalls] calls per [windowMs] with the given
    history. *)
Definition limiter_with (maxCalls windowMs : Z) (history : list Z)
  : RateLimiter :=
  {| calls := history; maxCalls := maxCalls; windowMs := windowMs |}.

Definition reset (rl : RateLimiter) : RateLimiter :=
  {| calls := []; maxCalls := maxCalls rl; windowMs := windowMs rl |}.

(** Successive [check()] calls at the given clock readings. *)
Fixpoint check_all (times : list Z) (rl : RateLimiter)
  : list bool * RateLimiter :=
  match times with
  | [] => ([], rl)
  | now :: rest =>
      let (b, rl1) := check now rl in
      let (bs, rl2) := check_all rest rl1 in
      (b :: bs, rl2)
  end.

End Validation.

(** ** src/main/settings/index.ts *)

Module Settings.

(** [AppSettings] at run time: each category is whatever object the
    merge of the defaults with the file produced. *)
Record AppSettings : Type := {
  general : object;
  network : object;
  storage : object;
  appearance : object;
  privacy : object;
  advanced : object
}.

Definition categories : list string :=
  ["general"; "network"; "storage"; "appearance"; "privacy"; "advanced"].

(** [typeof v !== 'object' || v === null || Array.isArray(v)] *)
Definition not_plain_object (v : value) : bool :=
  negb (type_tag_eqb (typeof v) TObject) || is_null v || isArray v.

(** [v !== undefined && typeof v !== t] *)
Definition present_not (t : type_tag) (v : value) : bool :=
  negb (is_undefined v) && negb (type_tag_eqb (typeof v) t).

Definition built_in_themes : list string :=
  ["resistance-dog"; "utya-duck"; "midnight-blue"; "canard-yellow"].

Definition theme_rejected (theme : value) : bool :=
  negb (is_undefined theme) &&
  (let isBuiltIn := includes built_in_themes theme in
   let isCustom :=
     match theme with
     | VStr t => startsWith t "custom:"
     | _ => false
     end in
   negb isBuiltIn && negb isCustom).

Definition network_rejected (network : value) : bool :=
  truthy network &&
  (present_not TNumber (get network "proxyPort")
   || present_not TNumber (get network "storagePort")
   || present_not TBoolean (get network "autoConnect")
   || present_not TBoolean (get network "anonymousMode")
   || present_not TBoolean (get network "circuitRotation")
   || present_not TString (get network "rotateInterval")).

Definition privacy_rejected (privacy : value) : bool :=
  truthy privacy && present_not TBoolean (get privacy "clearOnExit").

Definition appearance_rejected (appearance : value) : bool :=
  truthy appearance &&
  (theme_rejected (get appearance "theme")
   || present_not TNumber (get appearance "defaultZoom")
   || (negb (is_undefined (get appearance "customThemes"))
       && negb (isArray (get appearance "customThemes")))).

(** The loop over [Object.keys(settings)]: unknown categories are
    skipped, a known one must be a plain object. *)
Definition categories_well_formed (settings : object) : bool :=
  forallb
    (fun key =>
       if negb (includes_str categories key) then true
       else negb (not_plain_object (prop settings key)))
    (keys settings).

Definition isValidSettingsObject (obj : value) : bool :=
  if not_plain_object obj then false
  else
    match obj with
    | VObj settings =>
        if negb (categories_well_formed settings) then false
        else if network_rejected (prop settings "network") then false
        else if privacy_rejected (prop settings "privacy") then false
        else if appearance_rejected (prop settings "appearance") then false
        else true
    | _ => false
    end.

(** [getDefaultSettings()], from [DEFAULT_SETTINGS]; the download
    path is [join(app.getPath('userData'), 'storage')]. *)
Definition getDefaultSettings (defaultStoragePath : string) : AppSettings :=
  {| general :=
       [("homepage", VStr "ton://start"); ("restoreTabs", VBool false)];
     network :=
       [("proxyPort", VNum (of_Z 8080));
        ("storagePort", VNum (of_Z 5555));
        ("autoConnect", VBool false);
        ("connectionTimeout", VNum (of_Z 30));
        ("syncCheckInterval", VNum (of_Z 3000));
        ("anonymousMode", VBool false);
        ("circuitRotation", VBool true);
        ("rotateInterval", VStr "10m")];
     storage :=
       [("downloadPath", VStr defaultStoragePath);
        ("pollingInterval", VNum (of_Z 2000))];
     appearance :=
       [("theme", VStr "resistance-dog");
        ("customThemes", VArr []);
        ("defaultZoom", VNum (of_Z 100));
        ("zoomMin", VNum (of_Z 30));
        ("zoomMax", VNum (of_Z 300));
        ("showBookmarksBar", VBool true);
        ("showStatusBar", VBool true)];
     privacy := [("clearOnExit", VBool true)];
     advanced :=
       [("proxyVerbosity", VNum (of_Z 2));
        ("storageVerbosity", VNum (of_Z 2));
        ("syncTestDomain", VStr "tonnet-sync-check.ton")] |}.

Definition settings_value (s : AppSettings) : value :=
  VObj [("general", VObj (general s)); ("network", VObj (network s));
        ("storage", VObj (storage s)); ("appearance", VObj (appearance s));
        ("privacy", VObj (privacy s)); ("advanced", VObj (advanced s))].

(** What [JSON.parse] reads back from the text [JSON.stringify]
    writes: properties holding [undefined] are left out, [undefined]
    array items and non-finite numbers become [null]. *)
Fixpoint to_json (v : value) : value :=
  match v with
  | VUndefined => VNull
  | VNum (Finite _) => v
  | VNum _ => VNull
  | VArr items => VArr (map to_json items)
  | VObj props =>
      VObj ((fix go (ps : list (string * value)) : list (string * value) :=
               match ps with
               | [] => []
               | (k, VUndefined) :: rest => go rest
               | (k, x) :: rest => (k, to_json x) :: go rest
               end) props)
  | _ => v
  end.

(** A file, by what [JSON.parse] makes of its text. *)
Inductive content : Type :=
| Garbage
| Json (v : value).

(** The module state ([settingsCache]) and the part of the file
    system the store touches, with the faults it may meet. *)
Record world : Type := {
  settingsCache : option AppSettings;
  dirExists : bool;
  settingsFile : option content;
  tempFile : option content;
  defaultStoragePath : string;
  mkdirFails : bool;
  readFails : bool;
  writeFails : bool;
  renameFails : bool
}.

Definition with_cache (c : option AppSettings) (w : world) : world :=
  {| settingsCache := c; dirExists := dirExists w;
     settingsFile := settingsFile w; tempFile := tempFile w;
     defaultStoragePath := defaultStoragePath w;
     mkdirFails := mkdirFails w; readFails := readFails w;
     writeFails := writeFails w; renameFails := renameFails w |}.

Definition with_dir (d : bool) (w : world) : world :=
  {| settingsCache := settingsCache w; dirExists := d;
     settingsFile := settingsFile w; tempFile := tempFile w;
     defaultStoragePath := defaultStoragePath w;
     mkdirFails := mkdirFails w; readFails := readFails w;
     writeFails := writeFails w; renameFails := renameFails w |}.

Definition with_files (file temp : option content) (w : world) : world :=
  {| settingsCache := settingsCache w; dirExists := dirExists w;
     settingsFile := file; tempFile := temp;
     defaultStoragePath := defaultStoragePath w;
     mkdirFails := mkdirFails w; readFails := readFails w;
     writeFails := writeFails w; renameFails := renameFails w |}.

(** [saveSettings(settings)]: [mkdirSync] is outside the [try], the
    write and the rename are inside it. *)
Definition saveSettings (settings : AppSettings) (w : world)
  : result unit * world :=
  if negb (dirExists w) && mkdirFails w then (Throw "mkdirSync failed", w)
  else
    let w := with_dir true w in
    if writeFails w then (Ok tt, w)
    else
      let text := Json (to_json (settings_value settings)) in
      let w := with_files (settingsFile w) (Some text) w in
      if renameFails w then (Ok tt, w)
      else (Ok tt, with_cache (Some settings) (with_files (Some text) None w)).

(** [{ ...defaults.c, ...loaded.c }] *)
Definition merge_category (defaults : object) (loaded : value) : object :=
  match loaded with
  | VObj o => spread defaults o
  | _ => defaults
  end.

Definition with_theme (theme : string) (s : AppSettings) : AppSettings :=
  {| general := general s; network := network s; storage := storage s;
     appearance := set "theme" (VStr theme) (appearance s);
     privacy := privacy s; advanced := advanced s |}.

Definition is_str (v : value) (s : string) : bool :=
  match v with VStr t => String.eqb t s | _ => false end.

(** The [catch] block of [loadSettings]. *)
Definition load_failed (defaults : AppSettings) (w : world)
  : result AppSettings * world :=
  (Ok defaults, with_cache (Some defaults) w).

(** A [saveSettings] call inside the [try] block, then [k]. *)
Definition save_in_try (defaults settings : AppSettings) (w : world)
  (k : world -> result AppSettings * world) : result AppSettings * world :=
  match saveSettings settings w with
  | (Ok _, w') => k w'
  | (Throw _, w') => load_failed defaults w'
  end.

(** [loadSettings()] *)
Definition loadSettings (w : world) : result AppSettings * world :=
  match settingsCache w with
  | Some cached => (Ok cached, w)
  | None =>
      let defaults := getDefaultSettings (defaultStoragePath w) in
      match settingsFile w with
      | None =>
          match saveSettings defaults (with_cache (Some defaults) w) with
          | (Ok _, w') => (Ok defaults, w')
          | (Throw e, w') => (Throw e, w')
          end
      | Some text =>
          if readFails w then load_failed defaults w
          else
            match text with
            | Garbage => load_failed defaults w
            | Json parsed =>
                if negb (isValidSettingsObject parsed) then
                  save_in_try defaults defaults
                    (with_cache (Some defaults) w)
                    (fun w' => (Ok defaults, w'))
                else
                  let merged :=
                    {| general := merge_category (general defaults) (get parsed "general");
                       network := merge_category (network defaults) (get parsed "network");
                       storage := merge_category (storage defaults) (get parsed "storage");
                       appearance := merge_category (appearance defaults) (get parsed "appearance");
                       privacy := merge_category (privacy defaults) (get parsed "privacy");
                       advanced := merge_category (advanced defaults) (get parsed "advanced") |} in
                  let theme := prop (appearance merged) "theme" in
                  let migrate (renamed : string) :=
                    let migrated := with_theme renamed merged in
                    save_in_try defaults migrated
                      (with_cache (Some migrated) w)
                      (fun w' => (Ok migrated, with_cache (Some migrated) w')) in
                  if is_str theme "midnight-blue" then migrate "resistance-dog"
                  else if is_str theme "canard-yellow" then migrate "utya-duck"
                  else (Ok merged, with_cache (Some merged) w)
            end
      end
  end.

(** [resetSettings()] *)
Definition resetSettings (w : world) : result unit * world :=
  saveSettings (getDefaultSettings (defaultStoragePath w)) w.

Definition category (s : AppSettings) (name : string) : value :=
  get (settings_value s) name.

(** [getSetting(category)] *)
Definition getSetting (name : string) (w : world) : result value * world :=
  match loadSettings w with
  | (Ok s, w') => (Ok (category s name), w')
  | (Throw e, w') => (Throw e, w')
  end.

(** The files of the store, which [load] may or may not touch. *)
Definition disk (w : world) : bool * option content * option content :=
  (dirExists w, settingsFile w, tempFile w).

(** The fields whose type [isValidSettingsObject] checks. *)
Inductive kind : Type := KNumber | KBoolean | KString | KArray.

Definition has_kind (k : kind) (v : value) : bool :=
  match k, v with
  | KNumber, VNum _ | KBoolean, VBool _ | KString, VStr _ | KArray, VArr _ => true
  | _, _ => false
  end.

Definition checked_fields : list (string * string * kind) :=
  [("network", "proxyPort", KNumber);
   ("network", "storagePort", KNumber);
   ("network", "autoConnect", KBoolean);
   ("network", "anonymousMode", KBoolean);
   ("network", "circuitRotation", KBoolean);
   ("network", "rotateInterval", KString);
   ("privacy", "clearOnExit", KBoolean);
   ("appearance", "theme", KString);
   ("appearance", "defaultZoom", KNumber);
   ("appearance", "customThemes", KArray)].

(** The document is an object with a category that is an object with
    a checked field present and of another type than declared. *)
Definition wrong_typed_field (doc : value) : Prop :=
  exists cat field k settings fields x,
    In (cat, field, k) checked_fields
    /\ doc = VObj settings
    /\ lookup cat settings = Some (VObj fields)
    /\ lookup field fields = Some x
    /\ x <> VUndefined
    /\ has_kind k x = false.

(** The keys of [AppSettings]. *)
Inductive category_name : Type :=
| General | Network | Storage | Appearance | Privacy | Advanced.

Definition name_of (c : category_name) : string :=
  match c with
  | General => "general"
  | Network => "network"
  | Storage => "storage"
  | Appearance => "appearance"
  | Privacy => "privacy"
  | Advanced => "advanced"
  end.

(** [settings[category]] *)
Definition category_object (c : category_name) (s : AppSettings) : object :=
  match c with
  | General => general s
  | Network => network s
  | Storage => storage s
  | Appearance => appearance s
  | Privacy => privacy s
  | Advanced => advanced s
  end.

(** [settings[category] = o] *)
Definition with_category (c : category_name) (o : object) (s : AppSettings)
  : AppSettings :=
  {| general := match c with General => o | _ => general s end;
     network := match c with Network => o | _ => network s end;
     storage := match c with Storage => o | _ => storage s end;
     appearance := match c with Appearance => o | _ => appearance s end;
     privacy := match c with Privacy => o | _ => privacy s end;
     advanced := match c with Advanced => o | _ => advanced s end |}.

(** [setSetting(category, values)]: the object [loadSettings] returns
    is the cached one, so the assignment changes the cache before
    [saveSettings] runs. *)
Definition setSetting (c : category_name) (values : object) (w : world)
  : result unit * world :=
  match loadSettings w with
  | (Throw e, w') => (Throw e, w')
  | (Ok settings, w') =>
      let updated :=
        with_category c (spread (category_object c settings) values) settings in
      saveSettings updated (with_cache (Some updated) w')
  end.

(** [getDownloadPath()], [setDownloadPath(path)], [getProxyPort()] and
    [getStoragePort()] *)
Definition getField (c : category_name) (field : string) (w : world)
  : result value * world :=
  match getSetting (name_of c) w with
  | (Ok o, w') => (Ok (get o field), w')
  | (Throw e, w') => (Throw e, w')
  end.

Definition getDownloadPath : world -> result value * world :=
  getField Storage "downloadPath".

Definition setDownloadPath (path : value) : world -> result unit * world :=
  setSetting Storage [("downloadPath", path)].

Definition getProxyPort : world -> result value * world :=
  getField Network "proxyPort".

Definition getStoragePort : world -> result value * world :=
  getField Network "storagePort".

(** The same disk seen by a later run of the application: the module
    state starts empty. *)
Definition next_run (w : world) : world := with_cache None w.

(** No file operation of the store fails. *)
Definition healthy (w : world) : Prop :=
  (dirExists w = true \/ mkdirFails w = false)
  /\ readFails w = false /\ writeFails w = false /\ renameFails w = false.

End Settings.

(** ** src/main/storage/http-client.ts *)

Module HttpClient.

Record BagInfo : Type := {
  bag_id : string;
  description : string;
  downloaded : number;
  size : number;
  download_speed : number;
  upload_speed : number;
  files_count : number;
  dir_name : string;
  completed : bool;
  header_loaded : bool;
  info_loaded : bool;
  active : bool;
  seeding : bool;
  peers : number
}.

Record BagFile : Type := { file_name : string; file_size : number }.

Record BagPeer : Type := {
  addr : string;
  peer_download_speed : number;
  peer_upload_speed : number
}.

Record BagDetails : Type := {
  details_bag_id : string;
  details_description : string;
  details_files : list BagFile;
  details_peers : list BagPeer;
  merkle_hash : string;
  piece_size : number;
  details_path : string;
  details_downloaded : number;
  details_size : number;
  details_active : bool;
  details_seeding : bool
}.

Record AddBagRequest : Type := {
  add_bag_id : string;
  add_path : option string;
  add_files : option (list number);
  add_download_all : option bool
}.

Record RemoveBagRequest : Type := {
  remove_bag_id : string;
  with_files : option bool
}.

(** [{ bags?: BagInfo[] }] and [{ ok: boolean }] *)
Record ListResult : Type := { bags : option (list BagInfo) }.
Record OkResult : Type := { ok : bool }.

Record StorageHTTPClient : Type := {
  host : string;
  port : number;
  auth : option (string * string)
}.

(** The endpoint of a call; [baseUrl] and the endpoint stay apart, as
    the template [`${this.baseUrl}${endpoint}`] has them. *)
Inductive endpoint : Type :=
| ApiList
| ApiDetails (bagId : string)
| ApiAdd
| ApiCreate
| ApiRemove
| ApiStop
| ApiVerify.

Inductive header : Type :=
| Plain (v : string)
| Basic (login password : string).

Record request : Type := {
  req_host : string;
  req_port : number;
  req_endpoint : endpoint;
  req_method : option string;
  req_headers : list (string * header);
  req_body : option value
}.

(** A response: [response.ok], [response.status], [response.text()]
    and what [JSON.parse] makes of the text, read at the type the
    caller casts it to ([None] when it throws). *)
Record response (T : Type) : Type := {
  response_ok : bool;
  response_status : N;
  response_text : string;
  response_json : option T
}.
Arguments response_ok {T} r.
Arguments response_status {T} r.
Arguments response_text {T} r.
Arguments response_json {T} r.

(** The global [fetch]: it rejects, or resolves to a response. *)
Inductive outcome (T : Type) : Type :=
| Rejected (e : string)
| Resolved (r : response T).
Arguments Rejected {T} e.
Arguments Resolved {T} r.

Definition network (T : Type) : Type := request -> outcome T.

(** What [fetch<T>] resolves to: [{}] for an empty body, or the
    parsed object. *)
Inductive parsed (T : Type) : Type :=
| EmptyObject
| Object (v : T).
Arguments EmptyObject {T}.
Arguments Object {T} v.

Definition status_string (n : N) : string :=
  NilZero.string_of_uint (N.to_uint n).

(** The request of a call: URL parts, method, headers and body. *)
Definition make_request (c : StorageHTTPClient) (ep : endpoint)
  (method : option string) (body : option value) : request :=
  {| req_host := host c; req_port := port c; req_endpoint := ep;
     req_method := method;
     req_headers :=
       ("Content-Type", Plain "application/json")
       :: match auth c with
          | Some (login, password) => [("Authorization", Basic login password)]
          | None => []
          end;
     req_body := body |}.

Definition list_request (c : StorageHTTPClient) : request :=
  make_request c ApiList None None.

Definition fetch {T} (c : StorageHTTPClient) (net : network T)
  (ep : endpoint) (method : option string) (body : option value)
  : result (parsed T) :=
  let req := make_request c ep method body in
  match net req with
  | Rejected e => Throw e
  | Resolved r =>
      if negb (response_ok r) then
        Throw ("HTTP " ++ status_string (response_status r) ++ ": "
               ++ response_text r)
      else if String.eqb (response_text r) "" then Ok EmptyObject
      else
        match response_json r with
        | Some v => Ok (Object v)
        | None => Throw "SyntaxError"
        end
  end.

(** [listBags()]: [result.bags || []] *)
Definition listBags (c : StorageHTTPClient) (net : network ListResult)
  : result (list BagInfo) :=
  bind (fetch c net ApiList None None)
    (fun r =>
       Ok match r with
          | Object {| bags := Some l |} => l
          | _ => []
          end).

Definition getBagDetails (c : StorageHTTPClient) (net : network BagDetails)
  (bagId : string) : result (parsed BagDetails) :=
  fetch c net (ApiDetails bagId) None None.

Definition option_value {A} (f : A -> value) (o : option A) : value :=
  match o with Some a => f a | None => VUndefined end.

Definition addBag (c : StorageHTTPClient) (net : network OkResult)
  (r : AddBagRequest) : result (parsed OkResult) :=
  fetch c net ApiAdd (Some "POST")
    (Some (VObj
       [("bag_id", VStr (add_bag_id r));
        ("path", VStr match add_path r with
                      | Some p => p
                      | None => ""
                      end);
        ("files", option_value (fun l => VArr (map VNum l)) (add_files r));
        ("download_all", VBool match add_download_all r with
                               | Some b => b
                               | None => true
                               end)])).

Definition removeBag (c : StorageHTTPClient) (net : network OkResult)
  (r : RemoveBagRequest) : result (parsed OkResult) :=
  fetch c net ApiRemove (Some "POST")
    (Some (VObj
       [("bag_id", VStr (remove_bag_id r));
        ("with_files", VBool match with_files r with
                             | Some b => b
                             | None => false
                             end)])).

Definition stopBag (c : StorageHTTPClient) (net : network OkResult)
  (bagId : string) : result (parsed OkResult) :=
  fetch c net ApiStop (Some "POST") (Some (VObj [("bag_id", VStr bagId)])).

Definition verifyBag (c : StorageHTTPClient) (net : network OkResult)
  (bagId : string) (existsOnly : bool) : result (parsed OkResult) :=
  fetch c net ApiVerify (Some "POST")
    (Some (VObj [("bag_id", VStr bagId); ("exists_only", VBool existsOnly)])).

(** [ping()]: list and discard, inside [try]/[catch]. *)
Definition ping (c : StorageHTTPClient) (net : network ListResult)
  : result bool :=
  match listBags c net with
  | Ok _ => Ok true
  | Throw _ => Ok false
  end.

End HttpClient.

(** ** Child processes: what [spawn] is given and what the child sends
    back *)

Module ChildProcess.

(** An argument of the spawned command; templates keep their
    numbers. *)
Inductive arg : Type :=
| Lit (s : string)
| Address (host : string) (port : number)
| NumArg (n : number)
| RotateArg (interval : value).

Record handle : Type := { command : string; args : list arg }.

Definition spawn (command : string) (args : list arg) : handle :=
  {| command := command; args := args |}.

(** The events the listeners of a manager are attached to. *)
Inductive event : Type :=
| StdoutData (data : string)
| StderrData (data : string)
| ExitEvent (code : option Z)
| ErrorEvent (message : string).

Definition is_exit (ev : event) : bool :=
  match ev with ExitEvent _ => true | _ => false end.

(** [\s] and [\w] on ASCII. *)
Definition is_space (c : ascii) : bool :=
  URL.between 9 13 c || URL.is_char " " c.

Definition is_word (c : ascii) : bool :=
  URL.is_alpha c || URL.is_digit c || URL.is_char "_" c.

Fixpoint trim_start (s : string) : string :=
  match s with
  | String c rest => if is_space c then trim_start rest else s
  | EmptyString => EmptyString
  end.

Fixpoint trim_end (s : string) : string :=
  match s with
  | EmptyString => EmptyString
  | String c rest =>
      match trim_end rest with
      | EmptyString => if is_space c then EmptyString else String c EmptyString
      | kept => String c kept
      end
  end.

(** [data.toString().trim()] *)
Definition trim (s : string) : string := trim_end (trim_start s).

Fixpoint take_while (p : ascii -> bool) (s : string) : string :=
  match s with
  | String c rest => if p c then String c (take_while p rest) else EmptyString
  | EmptyString => EmptyString
  end.

Fixpoint drop_while (p : ascii -> bool) (s : string) : string :=
  match s with
  | String c rest => if p c then drop_while p rest else s
  | EmptyString => EmptyString
  end.

Fixpoint drop (n : nat) (s : string) : string :=
  match n, s with
  | S n', String _ rest => drop n' rest
  | _, _ => s
  end.

(** [label\s+(\w+)] anchored at the head of [s]: the captured group. *)
Definition match_here (label s : string) : option string :=
  if String.prefix label s then
    let rest := drop (String.length label) s in
    match take_while is_space rest with
    | EmptyString => None
    | _ =>
        match take_while is_word (drop_while is_space rest) with
        | EmptyString => None
        | w => Some w
        end
    end
  else None.

(** [message.match(/label\s+(\w+)/)]: group 1 of the leftmost match. *)
Fixpoint match_label (label s : string) : option string :=
  match match_here label s with
  | Some w => Some w
  | None =>
      match s with
      | EmptyString => None
      | String _ rest => match_label label rest
      end
  end.

(** The port of the address the child is told to listen on. *)
Fixpoint address_port (l : list arg) : option number :=
  match l with
  | [] => None
  | Address _ p :: _ => Some p
  | _ :: rest => address_port rest
  end.

End ChildProcess.

(** ** src/main/storage/daemon.ts *)

Module StorageManager.

Import HttpClient ChildProcess Validators.

Inductive bag_status : Type := Downloading | Seeding | Paused | BagError.

Record StorageBag : Type := {
  id : string;
  name : string;
  bag_size : number;
  bag_downloaded : number;
  downloadSpeed : number;
  uploadSpeed : number;
  bag_peers : number;
  filesCount : number;
  status : bag_status
}.

(** [`Bag ${bagId.slice(0, 8)}...`] *)
Definition short_name (bagId : string) : string :=
  "Bag " ++ String.substring 0 8 bagId ++ "...".

(** [a || b] on strings. *)
Definition or_str (a b : string) : string :=
  if String.eqb a "" then b else a.

Definition mapBagInfo (info : BagInfo) : StorageBag :=
  let status :=
    if negb (active info) then Paused
    else if completed info && seeding info then Seeding
    else if completed info then Seeding
    else Downloading in
  {| id := bag_id info;
     name := or_str (description info)
               (or_str (dir_name info) (short_name (bag_id info)));
     bag_size := size info;
     bag_downloaded := downloaded info;
     downloadSpeed := download_speed info;
     uploadSpeed := upload_speed info;
     bag_peers := peers info;
     filesCount := files_count info;
     status := status |}.

(** What the manager emits. *)
Inductive emission : Type :=
| EmitLog (message : string)
| EmitError (message : string)
| EmitExit (code : option Z)
| EmitStarted
| EmitStopped
| EmitBagsUpdated (bags : list StorageBag).

(** The fields of the class; [attached] records whether the listeners
    set by [start] are still on the child, [emitted] the events
    emitted so far, oldest first. *)
Record t : Type := {
  process : option handle;
  port : value;
  storagePath : value;
  dbPath : string;
  isRunning : bool;
  client : option StorageHTTPClient;
  pollInterval : option value;
  attached : bool;
  emitted : list emission
}.

Definition new (downloadPath : value) (dbPath : string) : t :=
  {| process := None; port := VNum (of_Z 0); storagePath := downloadPath;
     dbPath := dbPath; isRunning := false; client := None;
     pollInterval := None; attached := false; emitted := [] |}.

Definition emit (e : emission) (m : t) : t :=
  {| process := process m; port := port m; storagePath := storagePath m;
     dbPath := dbPath m; isRunning := isRunning m; client := client m;
     pollInterval := pollInterval m; attached := attached m;
     emitted := emitted m ++ [e] |}.

Definition set_port_path (p path : value) (m : t) : t :=
  {| process := process m; port := p; storagePath := path;
     dbPath := dbPath m; isRunning := isRunning m; client := client m;
     pollInterval := pollInterval m; attached := attached m;
     emitted := emitted m |}.

Definition set_process (h : option handle) (listening : bool)
  (c : option StorageHTTPClient) (running : bool) (m : t) : t :=
  {| process := h; port := port m; storagePath := storagePath m;
     dbPath := dbPath m; isRunning := running; client := c;
     pollInterval := pollInterval m; attached := listening;
     emitted := emitted m |}.

Definition set_pollInterval (i : option value) (m : t) : t :=
  {| process := process m; port := port m; storagePath := storagePath m;
     dbPath := dbPath m; isRunning := isRunning m; client := client m;
     pollInterval := i; attached := attached m; emitted := emitted m |}.

(** [stopPolling()] *)
Definition stopPolling (m : t) : t := set_pollInterval None m.

(** The private [loadSettings()]: it also stores the port and the
    download path. *)
Definition loadSettings (settings : Settings.AppSettings) (m : t) : t :=
  set_port_path
    (prop (Settings.network settings) "storagePort")
    (prop (Settings.storage settings) "downloadPath") m.

(** The listeners [start] puts on the child. *)
Definition on_event (ev : event) (m : t) : t :=
  match ev with
  | StdoutData data =>
      let message := trim data in
      if String.eqb message "" then m else emit (EmitLog message) m
  | StderrData data =>
      let message := trim data in
      if String.eqb message "" then m else emit (EmitError message) m
  | ExitEvent code =>
      emit (EmitExit code)
        (stopPolling (set_process None (attached m) None false m))
  | ErrorEvent message => emit (EmitError message) m
  end.

(** An event of the child reaches the manager while its listeners are
    attached. *)
Definition deliver (ev : event) (m : t) : t :=
  if attached m then on_event ev m else m.

Definition deliver_all (evs : list event) (m : t) : t :=
  fold_left (fun acc ev => deliver ev acc) evs m.

(** One round of the readiness loop, as the outside world shapes it:
    the events that arrive while [ping] is awaited, the daemon's
    answer, the events that arrive during the 500 ms pause. *)
Record attempt : Type := {
  during_ping : list event;
  ping_network : network ListResult;
  during_sleep : list event
}.

Definition not_ready : string := "Storage daemon API did not become ready".
Definition already_running : string := "Storage daemon already running".
Definition not_running : string := "Storage daemon not running".

(** [waitForReady(maxAttempts = 30)]: [left] rounds remain, the next
    one is round [i]. *)
Fixpoint waitForReady (left i : nat) (rounds : nat -> attempt) (m : t)
  : result unit * t :=
  match left with
  | O => (Throw not_ready, m)
  | S left' =>
      match client m with
      | None => (Throw not_ready, m)
      | Some c =>
          let a := rounds i in
          let m1 := deliver_all (during_ping a) m in
          match ping c (ping_network a) with
          | Throw e => (Throw e, m1)
          | Ok true => (Ok tt, m1)
          | Ok false =>
              waitForReady left' (S i) rounds (deliver_all (during_sleep a) m1)
          end
      end
  end.

(** What [start] reads from outside the manager. *)
Record start_env : Type := {
  settings : Settings.AppSettings;
  binPath : string;
  configPath : string;
  mkdir_error : option string;
  rounds : nat -> attempt
}.

(** [startPolling()] *)
Definition startPolling (env : start_env) (m : t) : t :=
  let m := loadSettings (settings env) m in
  set_pollInterval
    (Some (prop (Settings.storage (settings env)) "pollingInterval")) m.

(** [start()] *)
Definition start (env : start_env) (m : t) : result unit * t :=
  match process m with
  | Some _ => (Throw already_running, m)
  | None =>
      let m := loadSettings (settings env) m in
      match mkdir_error env with
      | Some e => (Throw e, m)
      | None =>
          let safePort := validatePort (port m) storageDefaultPort in
          let safeVerbosity :=
            validateVerbosity
              (prop (Settings.advanced (settings env)) "storageVerbosity")
              defaultVerbosity in
          let m := set_port_path (VNum safePort) (storagePath m) m in
          let child :=
            spawn (binPath env)
              [Lit "-daemon"; Lit "-api"; Address "127.0.0.1" safePort;
               Lit "-db"; Lit (dbPath m);
               Lit "-network-config"; Lit (configPath env);
               Lit "-verbosity"; NumArg safeVerbosity] in
          let m :=
            set_process (Some child) true
              (Some {| host := "127.0.0.1"; HttpClient.port := safePort;
                       auth := None |})
              (isRunning m) m in
          match waitForReady 30 0 (rounds env) m with
          | (Throw e, m') => (Throw e, m')
          | (Ok _, m') =>
              (Ok tt,
               startPolling env
                 (emit EmitStarted
                    (set_process (process m') (attached m') (client m')
                       true m')))
          end
      end
  end.


(** [stop()] *)
Definition stop (m : t) : t :=
  let m := stopPolling m in
  match process m with
  | Some _ => emit EmitStopped (set_process None false None false m)
  | None => m
  end.

Record Status : Type := {
  running : bool;
  status_port : value;
  status_storagePath : value
}.

Definition getStatus (m : t) : Status :=
  {| running := isRunning m; status_port := port m;
     status_storagePath := storagePath m |}.

(** [addBag(bagId, downloadPath?)] *)
Definition addBag (net : network OkResult) (bagId : string)
  (downloadPath : option string) (m : t) : result StorageBag :=
  match client m with
  | None => Throw not_running
  | Some c =>
      let path :=
        match downloadPath with
        | Some p => if String.eqb p "" then None else Some p
        | None => None
        end in
      bind
        (HttpClient.addBag c net
           {| add_bag_id := bagId;
              add_path :=
                match path, storagePath m with
                | Some p, _ => Some p
                | None, VStr p => Some p
                | None, _ => None
                end;
              add_files := None;
              add_download_all := Some true |})
        (fun _ =>
           Ok {| id := bagId; name := short_name bagId;
                 bag_size := of_Z 0; bag_downloaded := of_Z 0;
                 downloadSpeed := of_Z 0; uploadSpeed := of_Z 0;
                 bag_peers := of_Z 0; filesCount := of_Z 0;
                 status := Downloading |})
  end.

(** [result.ok] on what [fetch] resolved to. *)
Definition ok_of (r : parsed OkResult) : option bool :=
  match r with
  | Object o => Some (ok o)
  | EmptyObject => None
  end.

(** [removeBag(bagId, withFiles = false)] *)
Definition removeBag (net : network OkResult) (bagId : string)
  (withFiles : bool) (m : t) : result (option bool) :=
  match client m with
  | None => Throw not_running
  | Some c =>
      bind
        (HttpClient.removeBag c net
           {| remove_bag_id := bagId; with_files := Some withFiles |})
        (fun r => Ok (ok_of r))
  end.

(** [listBags()] *)
Definition listBags (net : network ListResult) (m : t)
  : result (list StorageBag) :=
  match client m with
  | None => Ok []
  | Some c => bind (HttpClient.listBags c net) (fun l => Ok (map mapBagInfo l))
  end.

(** [pauseBag(bagId)] *)
Definition pauseBag (net : network OkResult) (bagId : string) (m : t)
  : result (option bool) :=
  match client m with
  | None => Throw not_running
  | Some c => bind (HttpClient.stopBag c net bagId) (fun r => Ok (ok_of r))
  end.

(** [getBagDetails(bagId)] *)
Definition getBagDetails (net : network BagDetails) (bagId : string) (m : t)
  : result (parsed BagDetails) :=
  match client m with
  | None => Throw not_running
  | Some c => HttpClient.getBagDetails c net bagId
  end.

(** What can happen to a manager: a call of [start], a call of
    [stop], an event of the child. *)
Inductive step : Type :=
| CallStart (env : start_env)
| CallStop
| ChildEvent (ev : event).

Definition is_stop (s : step) : bool :=
  match s with CallStop => true | _ => false end.

Definition is_child_exit (s : step) : bool :=
  match s with ChildEvent ev => is_exit ev | _ => false end.

Definition do_step (s : step) (m : t) : t :=
  match s with
  | CallStart env => snd (start env m)
  | CallStop => stop m
  | ChildEvent ev => deliver ev m
  end.

Definition run (steps : list step) (m : t) : t :=
  fold_left (fun acc s => do_step s acc) steps m.

(** A step that is neither a call of [stop] nor the exit of the
    child. *)
Definition quiet (s : step) : bool := negb (is_stop s) && negb (is_child_exit s).

(** A round of the readiness loop during which the child does not
    exit. *)
Definition calm (a : attempt) : bool :=
  negb (existsb is_exit (during_ping a))
  && negb (existsb is_exit (during_sleep a)).

Definition reports_started (e : emission) : bool :=
  match e with EmitStarted => true | _ => false end.

(** [m'] holds the handle, the client and the running flag of [m], and
    has emitted nothing that reports a start since. *)
Definition same_handle (m m' : t) : Prop :=
  process m' = process m
  /\ client m' = client m
  /\ isRunning m' = isRunning m
  /\ attached m' = attached m
  /\ exists added,
       emitted m' = (emitted m ++ added)%list
       /\ existsb reports_started added = false.

(** [setStoragePath(newPath)] *)
Definition setStoragePath (newPath : value) (m : t) : t :=
  set_port_path (port m) newPath m.


End StorageManager.

(** ** src/main/proxy/manager.ts *)

Module ProxyManager.

Import ChildProcess Validators.

Inductive ProxyStatus : Type := Stopped | Starting | Syncing | Connected.

Inductive emission : Type :=
| EmitStatus (status : ProxyStatus)
| EmitLog (message : string)
| EmitError (message : string)
| EmitExit (code : option Z)
| EmitDisconnected.

(** The fields of the class, with [attached] and [emitted] as for the
    storage manager.  [circuitRelays] is an array that may have
    holes. *)
Record t : Type := {
  process : option handle;
  port : value;
  status : ProxyStatus;
  syncCheckInterval : option value;
  anonymousMode : value;
  circuitRotation : value;
  rotateInterval : value;
  circuitRelays : list (option string);
  attached : bool;
  emitted : list emission
}.

Definition new : t :=
  {| process := None; port := VNum (of_Z 0); status := Stopped;
     syncCheckInterval := None; anonymousMode := VBool false;
     circuitRotation := VBool true; rotateInterval := VStr "10m";
     circuitRelays := []; attached := false; emitted := [] |}.

Definition emit (e : emission) (m : t) : t :=
  {| process := process m; port := port m; status := status m;
     syncCheckInterval := syncCheckInterval m;
     anonymousMode := anonymousMode m; circuitRotation := circuitRotation m;
     rotateInterval := rotateInterval m; circuitRelays := circuitRelays m;
     attached := attached m; emitted := emitted m ++ [e] |}.

Definition set_port (p : value) (m : t) : t :=
  {| process := process m; port := p; status := status m;
     syncCheckInterval := syncCheckInterval m;
     anonymousMode := anonymousMode m; circuitRotation := circuitRotation m;
     rotateInterval := rotateInterval m; circuitRelays := circuitRelays m;
     attached := attached m; emitted := emitted m |}.

Definition set_mode (anonymous rotation interval : value) (m : t) : t :=
  {| process := process m; port := port m; status := status m;
     syncCheckInterval := syncCheckInterval m;
     anonymousMode := anonymous; circuitRotation := rotation;
     rotateInterval := interval; circuitRelays := circuitRelays m;
     attached := attached m; emitted := emitted m |}.

Definition set_process (h : option handle) (listening : bool) (m : t) : t :=
  {| process := h; port := port m; status := status m;
     syncCheckInterval := syncCheckInterval m;
     anonymousMode := anonymousMode m; circuitRotation := circuitRotation m;
     rotateInterval := rotateInterval m; circuitRelays := circuitRelays m;
     attached := listening; emitted := emitted m |}.

Definition set_interval (i : option value) (m : t) : t :=
  {| process := process m; port := port m; status := status m;
     syncCheckInterval := i;
     anonymousMode := anonymousMode m; circuitRotation := circuitRotation m;
     rotateInterval := rotateInterval m; circuitRelays := circuitRelays m;
     attached := attached m; emitted := emitted m |}.

Definition set_relays (r : list (option string)) (m : t) : t :=
  {| process := process m; port := port m; status := status m;
     syncCheckInterval := syncCheckInterval m;
     anonymousMode := anonymousMode m; circuitRotation := circuitRotation m;
     rotateInterval := rotateInterval m; circuitRelays := r;
     attached := attached m; emitted := emitted m |}.

(** [setStatus(status)] *)
Definition setStatus (s : ProxyStatus) (m : t) : t :=
  emit (EmitStatus s)
    {| process := process m; port := port m; status := s;
       syncCheckInterval := syncCheckInterval m;
       anonymousMode := anonymousMode m;
       circuitRotation := circuitRotation m;
       rotateInterval := rotateInterval m;
       circuitRelays := circuitRelays m;
       attached := attached m; emitted := emitted m |}.

(** The private [loadSettings()]: it also stores the port. *)
Definition loadSettings (settings : Settings.AppSettings) (m : t) : t :=
  set_port (prop (Settings.network settings) "proxyPort") m.

(** [relays[i] = x]: an array grows, with holes, when [i] is past its
    end. *)
Fixpoint assign (i : nat) (x : string) (relays : list (option string))
  : list (option string) :=
  match i, relays with
  | O, [] => [Some x]
  | O, _ :: rest => Some x :: rest
  | S i', [] => None :: assign i' x []
  | S i', r :: rest => r :: assign i' x rest
  end.

Definition assign_match (i : nat) (found : option string)
  (relays : list (option string)) : list (option string) :=
  match found with
  | Some x => assign i x relays
  | None => relays
  end.

(** The three extractions run on a line of output. *)
Definition parse_relays (message : string) (relays : list (option string))
  : list (option string) :=
  assign_match 2 (match_label "Exit:" message)
    (assign_match 1 (match_label "Middle:" message)
       (assign_match 0 (match_label "Entry:" message) relays)).

(** The listeners [start] puts on the child. *)
Definition on_event (ev : event) (m : t) : t :=
  match ev with
  | StdoutData data =>
      let message := trim data in
      let m := emit (EmitLog message) m in
      if truthy (anonymousMode m) then
        set_relays (parse_relays message (circuitRelays m)) m
      else m
  | StderrData data =>
      let message := trim data in
      if String.eqb message "" then m else emit (EmitError message) m
  | ExitEvent code =>
      emit (EmitExit code)
        (set_interval None
           (set_process None (attached m) (setStatus Stopped m)))
  | ErrorEvent message => emit (EmitError message) m
  end.

Definition deliver (ev : event) (m : t) : t :=
  if attached m then on_event ev m else m.

Definition timeout_error : string := "Proxy failed to start within timeout".
Definition already_running : string := "Proxy already running".

(** What [start] reads from outside the manager: the settings, the
    binary's path, and the events of the child that arrive before the
    readiness timer fires. *)
Record start_env : Type := {
  settings : Settings.AppSettings;
  binPath : string;
  before_timeout : list event
}.

(** The promise of [waitForReady()]: [checkOutput] runs on each chunk
    of standard output after the log listener; when no chunk holds the
    marker the timer rejects. *)
Fixpoint await_marker (evs : list event) (m : t) : result unit * t :=
  match evs with
  | [] => (Throw timeout_error, m)
  | ev :: rest =>
      let m1 := deliver ev m in
      match ev with
      | StdoutData data =>
          if str_includes data "Proxy listening" then (Ok tt, m1)
          else await_marker rest m1
      | _ => await_marker rest m1
      end
  end.

(** [waitForReady()] *)
Definition waitForReady (env : start_env) (m : t) : result unit * t :=
  await_marker (before_timeout env) (loadSettings (settings env) m).

(** [startSyncCheck()] *)
Definition startSyncCheck (env : start_env) (m : t) : t :=
  let m := loadSettings (settings env) m in
  set_interval
    (Some (prop (Settings.network (settings env)) "syncCheckInterval")) m.

(** [start()] *)
Definition start (env : start_env) (m : t) : result unit * t :=
  match process m with
  | Some _ => (Throw already_running, m)
  | None =>
      let network := Settings.network (settings env) in
      let m := loadSettings (settings env) m in
      let safePort := validatePort (port m) defaultPort in
      let m := set_port (VNum safePort) m in
      let m :=
        set_mode (prop network "anonymousMode")
          (prop network "circuitRotation") (prop network "rotateInterval") m in
      let m := setStatus Starting m in
      let args :=
        if truthy (anonymousMode m) then
          List.app
            [Lit "--auto"; Lit "--listen"; Address "127.0.0.1" safePort]
            (if truthy (prop network "circuitRotation")
                && truthy (prop network "rotateInterval")
             then [RotateArg (prop network "rotateInterval")] else [])
        else [Lit "--direct"; Lit "--listen"; Address "127.0.0.1" safePort] in
      let m := set_process (Some (spawn (binPath env) args)) true m in
      match waitForReady env m with
      | (Throw e, m') => (Throw e, m')
      | (Ok _, m') => (Ok tt, startSyncCheck env (setStatus Syncing m'))
      end
  end.

(** The probe of the sync check: a response with its status code, an
    error, or a timeout. *)
Inductive probe : Type :=
| Response (statusCode : Z)
| ProbeError
| ProbeTimeout.

Definition checkSync (p : probe) : bool :=
  match p with
  | Response code => negb (code =? 502)
  | _ => false
  end.

(** One tick of the sync-check timer. *)
Definition sync_tick (p : probe) (m : t) : t :=
  match syncCheckInterval m with
  | None => m
  | Some _ =>
      if checkSync p then set_interval None (setStatus Connected m) else m
  end.

(** [stop()] *)
Definition stop (m : t) : t :=
  let m := set_interval None m in
  match process m with
  | Some _ =>
      emit EmitDisconnected
        (setStatus Stopped (set_relays [] (set_process None false m)))
  | None => m
  end.

(** [isRunning()] and [isSynced()] *)
Definition isRunning (m : t) : bool :=
  match process m with Some _ => true | None => false end.

Definition isSynced (m : t) : bool :=
  match status m with Connected => true | _ => false end.

Definition reports_ready (e : emission) : bool :=
  match e with
  | EmitStatus Syncing | EmitStatus Connected => true
  | _ => false
  end.

Inductive step : Type :=
| CallStart (env : start_env)
| CallStop
| ChildEvent (ev : event).

Definition is_stop (s : step) : bool :=
  match s with CallStop => true | _ => false end.

Definition is_child_exit (s : step) : bool :=
  match s with ChildEvent ev => is_exit ev | _ => false end.

Definition do_step (s : step) (m : t) : t :=
  match s with
  | CallStart env => snd (start env m)
  | CallStop => stop m
  | ChildEvent ev => deliver ev m
  end.

Definition run (steps : list step) (m : t) : t :=
  fold_left (fun acc s => do_step s acc) steps m.

(** A step that is neither a call of [stop] nor the exit of the
    child. *)
Definition quiet (s : step) : bool := negb (is_stop s) && negb (is_child_exit s).

Record Status : Type := {
  status_status : ProxyStatus;
  status_connected : bool;
  status_syncing : bool;
  status_port : value;
  status_anonymousMode : value;
  status_circuitRelays : list (option string)
}.

(** [getStatus()] *)
Definition getStatus (m : t) : Status :=
  {| status_status := status m;
     status_connected := match status m with Connected => true | _ => false end;
     status_syncing := match status m with Syncing => true | _ => false end;
     status_port := port m;
     status_anonymousMode := anonymousMode m;
     status_circuitRelays := circuitRelays m |}.

(** [relays[i]]: a hole or an index past the end reads as
    [undefined]. *)
Definition relay (i : nat) (relays : list (option string)) : option string :=
  nth i relays None.

(** Does a chunk of standard output carry the readiness marker. *)
Definition is_marker (ev : event) : bool :=
  match ev with
  | StdoutData data => str_includes data "Proxy listening"
  | _ => false
  end.


End ProxyManager.


(** ** src/main/ipc/validation.ts: the download path *)

Module DownloadPath.

Import Validation.

(** What the validator asks the platform: [process.platform],
    [path.isAbsolute], [path.normalize], [os.homedir()] and, on Windows,
    [path.join(process.env.USERPROFILE || '', '..')],
    [process.env.APPDATA || ''] and [process.env.LOCALAPPDATA || '']. *)
Record platform : Type := {
  win32 : bool;
  isAbsolute : string -> bool;
  normalize : string -> string;
  homedir : string;
  userProfileParent : string;
  appData : string;
  localAppData : string
}.

Definition blockedPaths : list string :=
  ["/bin"; "/sbin"; "/usr"; "/etc"; "/var"; "/sys"; "/proc"; "/dev"; "/boot";
   "/lib"].

(** [normalized === blocked || normalized.startsWith(blocked + '/')] *)
Definition under_blocked (normalized blocked : string) : bool :=
  String.eqb normalized blocked || startsWith normalized (blocked ++ "/").

Definition allowedRoots (os : platform) : list string :=
  homedir os
  :: (if win32 os then [userProfileParent os; appData os; localAppData os]
      else ["/tmp"; "/home"]).

(** [root && normalized.startsWith(root)] *)
Definition under_root (normalized root : string) : bool :=
  negb (String.eqb root "") && startsWith normalized root.

Definition isValidDownloadPath (os : platform) (inputPath : value) : UrlCheck :=
  match inputPath with
  | VStr p =>
      if String.eqb (ChildProcess.trim p) "" then
        rejected "Path must be a non-empty string"
      else if negb (isAbsolute os p) then rejected "Path must be absolute"
      else
        let normalized := normalize os p in
        if negb (win32 os) && existsb (under_blocked normalized) blockedPaths then
          rejected "System directories are not allowed"
        else if existsb (under_root normalized) (allowedRoots os) then accepted
        else rejected "Path must be in user-accessible directory"
  | _ => rejected "Path must be a non-empty string"
  end.

End DownloadPath.

(** ** src/main/storage/bags.ts and the storage handlers of
    src/main/ipc/handlers.ts *)

Module Handlers.

Import Validation HttpClient.

(** What a handler sends back: [{ success, error?, ... }]. *)
Record Reply (A : Type) : Type := {
  success : option bool;
  reply_error : option string;
  payload : option A
}.
Arguments success {A} r.
Arguments reply_error {A} r.
Arguments payload {A} r.

Definition failed {A} (e : string) : Reply A :=
  {| success := Some false; reply_error := Some e; payload := None |}.

Definition succeeded {A} (a : A) : Reply A :=
  {| success := Some true; reply_error := None; payload := Some a |}.

(** [{ success: result }] *)
Definition flagged {A} (result : option bool) : Reply A :=
  {| success := result; reply_error := None; payload := None |}.

(** The argument the renderer sent, read at its declared type. *)
Definition as_string (v : value) : string :=
  match v with VStr s => s | _ => "" end.

(** [STORAGE_ADD_BAG] *)
Definition storage_add_bag (now : Z) (net : network OkResult) (bagId : value)
  (limiter : RateLimiter) (m : StorageManager.t)
  : result (Reply StorageManager.StorageBag) * RateLimiter :=
  let (allowed, limiter') := check now limiter in
  if negb allowed then (Ok (failed "Rate limited"), limiter')
  else if negb (isValidBagId bagId) then
    (Ok (failed "Invalid bag ID format (must be 64 hex characters)"), limiter')
  else
    match StorageManager.addBag net (as_string bagId) None m with
    | Ok bag => (Ok (succeeded bag), limiter')
    | Throw e => (Ok (failed e), limiter')
    end.

(** [STORAGE_REMOVE_BAG] *)
Definition storage_remove_bag (net : network OkResult) (bagId : value)
  (m : StorageManager.t) : result (Reply unit) :=
  if negb (isValidBagId bagId) then Ok (failed "Invalid bag ID format")
  else
    bind (StorageManager.removeBag net (as_string bagId) false m)
      (fun result => Ok (flagged result)).

(** [STORAGE_LIST_BAGS] *)
Definition storage_list_bags (net : network ListResult) (m : StorageManager.t)
  : result (Reply (list StorageManager.StorageBag)) :=
  bind (StorageManager.listBags net m) (fun bags => Ok (succeeded bags)).

(** [STORAGE_PAUSE_BAG] *)
Definition storage_pause_bag (net : network OkResult) (bagId : value)
  (m : StorageManager.t) : result (Reply unit) :=
  if negb (isValidBagId bagId) then Ok (failed "Invalid bag ID format")
  else
    bind (StorageManager.pauseBag net (as_string bagId) m)
      (fun result => Ok (flagged result)).

(** [STORAGE_RESUME_BAG]: [resumeBag] always answers false. *)
Definition storage_resume_bag (bagId : value) : result (Reply unit) :=
  if negb (isValidBagId bagId) then Ok (failed "Invalid bag ID format")
  else Ok (flagged (Some false)).

(** [STORAGE_GET_DETAILS] *)
Definition storage_get_details (net : network BagDetails) (bagId : value)
  (m : StorageManager.t) : result (Reply (parsed BagDetails)) :=
  if negb (isValidBagId bagId) then Ok (failed "Invalid bag ID format")
  else
    match StorageManager.getBagDetails net (as_string bagId) m with
    | Ok details => Ok (succeeded details)
    | Throw e => Ok (failed e)
    end.

End Handlers.

(** ** Scenarios

    Concrete worlds and environments on which the code is run below. *)

Module Scenarios.

Import Settings.

(** A settings document whose [network.proxyPort] is a string. *)
Definition bad_port_document : value :=
  VObj [("network", VObj [("proxyPort", VStr "not-a-number")])].

(** A healthy disk holding the given settings file, nothing loaded
    yet. *)
Definition fresh_world (file : option content) : world :=
  {| settingsCache := None; dirExists := true; settingsFile := file;
     tempFile := None; defaultStoragePath := "/home/user/.config/tonnet/storage";
     mkdirFails := false; readFails := false; writeFails := false;
     renameFails := false |}.

Definition bad_port_world : world := fresh_world (Some (Json bad_port_document)).
Definition garbage_world : world := fresh_world (Some Garbage).

Definition defaults : AppSettings :=
  getDefaultSettings "/home/user/.config/tonnet/storage".

(** A daemon that is not listening, and one that answers the list call
    with an empty object. *)
Definition unreachable {T : Type} : HttpClient.network T :=
  fun _ => HttpClient.Rejected "connect ECONNREFUSED 127.0.0.1:5555".

Definition answering : HttpClient.network HttpClient.ListResult :=
  fun _ =>
    HttpClient.Resolved
      {| HttpClient.response_ok := true;
         HttpClient.response_status := 200;
         HttpClient.response_text := "{}";
         HttpClient.response_json := Some {| HttpClient.bags := None |} |}.

Definition fresh_storage : StorageManager.t :=
  StorageManager.new (VStr "/home/user/.config/tonnet/storage")
    "/home/user/.config/tonnet/storage/db".

(** A storage start during which the child stays alive and silent and
    every ping gets the answer of [net]. *)
Definition storage_env (net : HttpClient.network HttpClient.ListResult)
  : StorageManager.start_env :=
  {| StorageManager.settings := defaults;
     StorageManager.binPath := "/opt/tonnet/bin/tonutils-storage";
     StorageManager.configPath := "/opt/tonnet/config/global.config.json";
     StorageManager.mkdir_error := None;
     StorageManager.rounds :=
       fun _ =>
         {| StorageManager.during_ping := [];
            StorageManager.ping_network := net;
            StorageManager.during_sleep := [] |} |}.

(** A proxy start during which the child sends the given events before
    the timer fires. *)
Definition proxy_env (events : list ChildProcess.event)
  : ProxyManager.start_env :=
  {| ProxyManager.settings := defaults;
     ProxyManager.binPath := "/opt/tonnet/bin/tonnet-proxy";
     ProxyManager.before_timeout := events |}.

Definition proxy_silent : ProxyManager.start_env :=
  proxy_env [ChildProcess.StdoutData "connecting to the network"].

Definition proxy_ready : ProxyManager.start_env :=
  proxy_env [ChildProcess.StdoutData "Proxy listening on 127.0.0.1:8080"].

Definition proxy_crashing : ProxyManager.start_env :=
  proxy_env [ChildProcess.ExitEvent (Some 1)].

(** A POSIX platform whose paths are already normal. *)
Definition posix : DownloadPath.platform :=
  {| DownloadPath.win32 := false;
     DownloadPath.isAbsolute := fun p => startsWith p "/";
     DownloadPath.normalize := fun p => p;
     DownloadPath.homedir := "/home/user";
     DownloadPath.userProfileParent := "..";
     DownloadPath.appData := "";
     DownloadPath.localAppData := "" |}.

(** A settings file that sets an old theme name, and one that sets a
    port. *)
Definition legacy_document : value :=
  VObj [("appearance", VObj [("theme", VStr "midnight-blue")])].

Definition custom_port_document : value :=
  VObj [("network", VObj [("proxyPort", VNum (of_Z 9050))])].

Definition valid_bag_id : string :=
  "a1b2c3d4e5f6a1b2c3d4e5f6a1b2c3d4e5f6a1b2c3d4e5f6a1b2c3d4e5f6a1b2".

End Scenarios.

(** * Properties *)

(** ** Bag status *)

(** C1: the status [mapBagInfo] derives is a priority-ordered decision
    on the raw flags: not active is paused whatever [completed] is;
    active and completed is seeding; active and not completed is
    downloading. *)
Theorem mapBagInfo_status_priority (info : HttpClient.BagInfo) :
  StorageManager.status (StorageManager.mapBagInfo info) =
    match HttpClient.active info, HttpClient.completed info with
    | false, _ => StorageManager.Paused
    | true, true => StorageManager.Seeding
    | true, false => StorageManager.Downloading
    end.
Proof.
  unfold StorageManager.mapBagInfo; cbn [StorageManager.status].
  destruct (HttpClient.active info), (HttpClient.completed info),
    (HttpClient.seeding info); reflexivity.
Qed.

(** The other fields are copied from the raw record. *)
Lemma mapBagInfo_copies (info : HttpClient.BagInfo) :
  StorageManager.id (StorageManager.mapBagInfo info) = HttpClient.bag_id info
  /\ StorageManager.bag_size (StorageManager.mapBagInfo info) = HttpClient.size info
  /\ StorageManager.bag_peers (StorageManager.mapBagInfo info) = HttpClient.peers info.
Proof. repeat split. Qed.

(** ** Port validation *)

Lemma ltb_NaN_l (n : number) : ltb NaN n = false.
Proof. destruct n; reflexivity. Qed.

Lemma ltb_NaN_r (n : number) : ltb n NaN = false.
Proof. destruct n; reflexivity. Qed.

(** A number in the range is returned as it is. *)
Lemma validatePort_keeps (p : value) (d : number) :
  Validators.port_in_range p -> VNum (Validators.validatePort p d) = p.
Proof.
  intros (q & -> & Hlo & Hhi).
  unfold Validators.validatePort, gtb, ltb, of_Z.
  apply Qle_bool_iff in Hlo; apply Qle_bool_iff in Hhi.
  rewrite Hlo, Hhi; reflexivity.
Qed.

(** Anything else but NaN gives the default. *)
Lemma validatePort_default (p : value) (d : number) :
  ~ Validators.port_in_range p -> p <> VNum NaN ->
  Validators.validatePort p d = d.
Proof.
  intros Hout Hnan.
  destruct p as [| | b | n | s | l | o]; try reflexivity.
  destruct n as [q | | |]; try reflexivity; [| congruence].
  unfold Validators.validatePort, gtb, ltb, of_Z.
  destruct (Qle_bool (inject_Z 1024) q) eqn:Hlo; [| reflexivity].
  destruct (Qle_bool q (inject_Z 65535)) eqn:Hhi; [| reflexivity].
  exfalso; apply Hout; exists q.
  repeat split; apply Qle_bool_iff; assumption.
Qed.

(** C5: NaN is a number and both of its comparisons are false, so
    [validatePort] hands it back: neither default replaces it, although
    it is not in [1024, 65535]. *)
Theorem validatePort_NaN_escapes :
  Validators.validatePort (VNum NaN) Validators.defaultPort = NaN
  /\ Validators.validatePort (VNum NaN) Validators.storageDefaultPort = NaN
  /\ ~ Validators.port_in_range (VNum NaN).
Proof.
  repeat split.
  intros (q & H & _); discriminate H.
Qed.

(** ** Bag identifiers *)

Lemma match_hex_times_exact (n : nat) (s : string) :
  Validation.match_hex_times n s = Some EmptyString <->
  String.length s = n
  /\ Forall (fun c => Validation.is_hex c = true) (list_ascii_of_string s).
Proof.
  revert s; induction n as [| n IH]; intros s; cbn [Validation.match_hex_times].
  - split.
    + intros H; injection H as ->; split; [reflexivity | constructor].
    + intros [Hlen _]; destruct s; [reflexivity | discriminate Hlen].
  - destruct s as [| c rest]; cbn [String.length list_ascii_of_string].
    + split; [discriminate | intros [H _]; discriminate H].
    + destruct (Validation.is_hex c) eqn:Hc.
      * rewrite IH; split.
        -- intros [Hlen Hall]; split; [congruence | constructor; assumption].
        -- intros [Hlen Hall]; inversion Hall; subst; split; [congruence | assumption].
      * split; [discriminate |].
        intros [_ Hall]; inversion Hall; congruence.
Qed.

(** The character class is [a-f], [A-F] and [0-9]. *)
Lemma is_hex_chars (c : ascii) :
  Validation.is_hex c = true <->
  In c (list_ascii_of_string "abcdefABCDEF0123456789").
Proof.
  destruct c as [[] [] [] [] [] [] [] []]; vm_compute; split; intros H;
    try discriminate H; try reflexivity; try tauto;
    repeat (destruct H as [H | H]; [discriminate H |]); contradiction.
Qed.

(** C6: [isValidBagId] is a total boolean function (it cannot throw);
    it answers true exactly on a string of 64 characters that are all
    in [[a-fA-F0-9]], and false on null and undefined. *)
Theorem isValidBagId_exactly_64_hex (bagId : value) :
  (Validation.isValidBagId bagId = true <->
   exists s, bagId = VStr s
     /\ String.length s = 64%nat
     /\ Forall (fun c => Validation.is_hex c = true) (list_ascii_of_string s))
  /\ Validation.isValidBagId VNull = false
  /\ Validation.isValidBagId VUndefined = false.
Proof.
  split; [| split; reflexivity].
  destruct bagId as [| | b | n | s | l | o]; cbn [Validation.isValidBagId];
    try (split; [discriminate | intros (s' & H & _); discriminate H]).
  unfold Validation.bagid_regex_test.
  split.
  - intros H. exists s. split; [reflexivity |].
    apply match_hex_times_exact.
    destruct (Validation.match_hex_times 64 s) as [[| c r] |];
      [reflexivity | discriminate H | discriminate H].
  - intros (s' & Heq & Hs). injection Heq as <-.
    apply match_hex_times_exact in Hs. rewrite Hs. reflexivity.
Qed.

(** ** Rate limiter *)

Section RateLimiterFacts.

Import Validation.

Variables (n w now : Z).

Lemma filter_keeps_burst (k : nat) :
  0 < w -> filter (fun t => now - t <? w) (repeat now k) = repeat now k.
Proof.
  intros Hw; induction k as [| k IH]; [reflexivity |].
  cbn [repeat filter]. rewrite IH.
  replace (now - now <? w) with true; [reflexivity |].
  symmetry; apply Z.ltb_lt; lia.
Qed.

Lemma filter_drops_burst (k : nat) (later : Z) :
  w < later - now -> filter (fun t => later - t <? w) (repeat now k) = [].
Proof.
  intros Hw; induction k as [| k IH]; [reflexivity |].
  cbn [repeat filter]. rewrite IH.
  replace (later - now <? w) with false; [reflexivity |].
  symmetry; apply Z.ltb_ge; lia.
Qed.

Lemma repeat_snoc (k : nat) : (repeat now k ++ [now])%list = repeat now (S k).
Proof.
  induction k as [| k IH]; [reflexivity |].
  cbn [repeat app]. rewrite IH. reflexivity.
Qed.

(** Below the maximum a call at the same instant is accepted and
    recorded. *)
Lemma check_accepts (k : nat) :
  0 < w -> Z.of_nat k < n ->
  check now (limiter_with n w (repeat now k)) =
    (true, limiter_with n w (repeat now (S k))).
Proof.
  intros Hw Hk. unfold check, limiter_with; cbn [calls maxCalls windowMs].
  rewrite filter_keeps_burst by assumption.
  rewrite repeat_length, repeat_snoc.
  replace (Z.of_nat k >=? n) with false; [reflexivity |].
  rewrite Z.geb_leb; symmetry; apply Z.leb_gt; lia.
Qed.

(** At the maximum it is rejected and the history stays as it was. *)
Lemma check_rejects (k : nat) :
  0 < w -> n <= Z.of_nat k ->
  check now (limiter_with n w (repeat now k)) = (false, limiter_with n w (repeat now k)).
Proof.
  intros Hw Hk. unfold check, limiter_with; cbn [calls maxCalls windowMs].
  rewrite filter_keeps_burst by assumption.
  rewrite repeat_length.
  replace (Z.of_nat k >=? n) with true; [reflexivity |].
  rewrite Z.geb_leb; symmetry; apply Z.leb_le; lia.
Qed.

Lemma check_all_burst (k j : nat) :
  0 < w -> Z.of_nat (j + k) <= n ->
  check_all (repeat now k) (limiter_with n w (repeat now j)) =
    (repeat true k, limiter_with n w (repeat now (j + k))).
Proof.
  intros Hw. revert j; induction k as [| k IH]; intros j Hjk.
  - rewrite Nat.add_0_r. reflexivity.
  - cbn [repeat check_all].
    rewrite check_accepts by lia.
    rewrite IH by lia.
    replace (S j + k)%nat with (j + S k)%nat by lia. reflexivity.
Qed.

(** Once the window has passed, the whole burst is pruned and the call
    is accepted. *)
Lemma check_after_window (k : nat) (later : Z) :
  1 <= n -> w < later - now ->
  check later (limiter_with n w (repeat now k)) = (true, limiter_with n w [later]).
Proof.
  intros Hn Hw. unfold check, limiter_with; cbn [calls maxCalls windowMs].
  rewrite filter_drops_burst by assumption.
  cbn [List.length app Z.of_nat].
  replace (0 >=? n) with false; [reflexivity |].
  rewrite Z.geb_leb; symmetry; apply Z.leb_gt; lia.
Qed.

End RateLimiterFacts.

(** C7, for a window that is a positive duration: the first [n] calls
    at one instant are accepted and recorded, the next one is rejected
    and leaves the history as it is, a call made more than [w]
    milliseconds later is accepted again, and [reset] empties the
    history. *)
Theorem RateLimiter_sliding_window (n w now : Z) :
  1 <= n -> 0 < w ->
  let burst := repeat now (Z.to_nat n) in
  let full := snd (Validation.check_all burst (Validation.new_RateLimiter n w)) in
  fst (Validation.check_all burst (Validation.new_RateLimiter n w))
    = repeat true (Z.to_nat n)
  /\ Validation.calls full = burst
  /\ Validation.check now full = (false, full)
  /\ (forall later, w < later - now ->
      Validation.check later full = (true, Validation.limiter_with n w [later]))
  /\ Validation.calls (Validation.reset full) = [].
Proof.
  intros Hn Hw burst full.
  assert (Hrun : Validation.check_all burst (Validation.new_RateLimiter n w)
                 = (repeat true (Z.to_nat n), Validation.limiter_with n w burst)).
  { apply (check_all_burst n w now (Z.to_nat n) 0 Hw).
    cbn [Nat.add]. rewrite Z2Nat.id; lia. }
  subst full. rewrite Hrun. cbn [fst snd].
  repeat split.
  - apply check_rejects; [assumption |]. rewrite Z2Nat.id; lia.
  - intros later Hlater. apply check_after_window; assumption.
Qed.

Lemma RateLimiter_sliding_window_witness :
  let full := snd (Validation.check_all [0; 0] (Validation.new_RateLimiter 2 1000)) in
  fst (Validation.check_all [0; 0] (Validation.new_RateLimiter 2 1000)) = [true; true]
  /\ Validation.calls full = [0; 0]
  /\ Validation.check 0 full = (false, full)
  /\ (forall later, 1000 < later - 0 ->
      Validation.check later full = (true, Validation.limiter_with 2 1000 [later]))
  /\ Validation.calls (Validation.reset full) = [].
Proof.
  apply (RateLimiter_sliding_window 2 1000 0); lia.
Defined.

(** With a window of zero milliseconds nothing is ever kept: the second
    call of a limiter of one call, made at the same instant, is accepted
    too. *)
Lemma RateLimiter_zero_window_accepts :
  fst (Validation.check_all [0; 0] (Validation.new_RateLimiter 1 0))
    = [true; true].
Proof. reflexivity. Qed.


(** ** Navigation URLs *)

Section NavigationUrlFacts.

Import Validation.

Variable URL_protocol : string -> option string.

Lemma dangerous_not_allowed (p : string) :
  includes_str DANGEROUS_SCHEMES p = true ->
  includes_str ALLOWED_SCHEMES p = false.
Proof.
  unfold includes_str, DANGEROUS_SCHEMES; cbn [existsb].
  rewrite !orb_true_iff, !String.eqb_eq.
  intros [-> | [-> | [-> | [-> | H]]]]; try reflexivity; discriminate H.
Qed.

(** A URL that parses to a scheme of the deny-list is turned away by
    the allow-list check, whose message names the scheme. *)
Lemma dangerous_protocol_blocked (url p : string) :
  startsWith url "ton://" = false ->
  URL_protocol (urlToParse url) = Some p ->
  includes_str DANGEROUS_SCHEMES p = true ->
  isValidNavigationUrl URL_protocol url = rejected ("Blocked scheme: " ++ p).
Proof.
  intros Hton Hparse Hdanger. unfold isValidNavigationUrl.
  rewrite Hton, Hparse, (dangerous_not_allowed p Hdanger). reflexivity.
Qed.

(** The deny-list check comes second and is never reached with a
    scheme it would reject. *)
Lemma dangerous_message_unreachable (url p : string) :
  isValidNavigationUrl URL_protocol url <> rejected ("Dangerous scheme: " ++ p).
Proof.
  unfold isValidNavigationUrl.
  destruct (startsWith url "ton://"); [discriminate |].
  destruct (URL_protocol (urlToParse url)) as [q |]; [| discriminate].
  destruct (includes_str ALLOWED_SCHEMES q) eqn:Hallowed; cbn [negb].
  - destruct (includes_str DANGEROUS_SCHEMES q) eqn:Hdanger; [| discriminate].
    rewrite (dangerous_not_allowed q Hdanger) in Hallowed. discriminate.
  - discriminate.
Qed.

End NavigationUrlFacts.

(** C4: [javascript:alert(1)] holds no [://], so it is parsed as
    [http://javascript:alert(1)], whose port is not a number: the
    constructor throws and the error is the generic one, which does not
    name the scheme. *)
Theorem javascript_url_gets_generic_error :
  Validation.urlToParse "javascript:alert(1)" = "http://javascript:alert(1)"
  /\ URL.protocol "http://javascript:alert(1)" = None
  /\ Validation.isValidNavigationUrl URL.protocol "javascript:alert(1)"
     = Validation.rejected "Invalid URL format"
  /\ str_includes "Invalid URL format" "javascript:" = false.
Proof. repeat split. Qed.

(** With a numeric port the same prefixing makes a valid [http:] URL
    out of a [javascript:] one, and it is accepted. *)
Lemma javascript_url_with_digits_accepted :
  Validation.isValidNavigationUrl URL.protocol "javascript:1"
  = Validation.accepted.
Proof. reflexivity. Qed.

Lemma file_url_blocked :
  Validation.isValidNavigationUrl URL.protocol "file:///etc/passwd"
  = Validation.rejected "Blocked scheme: file:".
Proof. reflexivity. Qed.

(** ** Settings *)

Section SettingsFacts.

Import Settings.

Lemma prop_lookup (o : object) (k : string) (v : value) :
  lookup k o = Some v -> prop o k = v.
Proof. unfold prop; intros ->; reflexivity. Qed.

Lemma present_not_number (x : value) :
  x <> VUndefined -> has_kind KNumber x = false -> present_not TNumber x = true.
Proof.
  destruct x; cbn; intros H1 H2; try reflexivity; try discriminate H2;
    congruence.
Qed.

Lemma present_not_boolean (x : value) :
  x <> VUndefined -> has_kind KBoolean x = false -> present_not TBoolean x = true.
Proof.
  destruct x; cbn; intros H1 H2; try reflexivity; try discriminate H2;
    congruence.
Qed.

Lemma present_not_string (x : value) :
  x <> VUndefined -> has_kind KString x = false -> present_not TString x = true.
Proof.
  destruct x; cbn; intros H1 H2; try reflexivity; try discriminate H2;
    congruence.
Qed.

Lemma theme_not_string (x : value) :
  x <> VUndefined -> has_kind KString x = false -> theme_rejected x = true.
Proof.
  destruct x; cbn; intros H1 H2; try reflexivity; try discriminate H2;
    congruence.
Qed.

Lemma themes_not_array (x : value) :
  x <> VUndefined -> has_kind KArray x = false ->
  negb (is_undefined x) && negb (isArray x) = true.
Proof.
  destruct x; cbn; intros H1 H2; try reflexivity; try discriminate H2;
    congruence.
Qed.

(** One rejecting category is enough. *)
Lemma rejected_category_invalid (settings : object) :
  network_rejected (prop settings "network")
  || privacy_rejected (prop settings "privacy")
  || appearance_rejected (prop settings "appearance") = true ->
  isValidSettingsObject (VObj settings) = false.
Proof.
  unfold isValidSettingsObject; cbn [not_plain_object typeof type_tag_eqb negb
                                       is_null isArray orb].
  destruct (categories_well_formed settings); cbn [negb]; [| reflexivity].
  destruct (network_rejected _); [reflexivity |].
  destruct (privacy_rejected _); [reflexivity |].
  destruct (appearance_rejected _); [reflexivity | discriminate].
Qed.

Lemma wrong_typed_field_rejected (doc : value) :
  wrong_typed_field doc -> isValidSettingsObject doc = false.
Proof.
  intros (cat & field & k & settings & fields & x
          & Hin & -> & Hcat & Hfield & Hx & Hkind).
  apply rejected_category_invalid.
  apply prop_lookup in Hfield.
  cbn [checked_fields In] in Hin.
  repeat (destruct Hin as [Hin | Hin];
          [injection Hin as <- <- <-; rewrite (prop_lookup _ _ _ Hcat);
           unfold network_rejected, privacy_rejected, appearance_rejected;
           cbn [truthy get andb]; rewrite Hfield |]);
    try contradiction.
  all: first [ rewrite (present_not_number x Hx Hkind)
             | rewrite (present_not_boolean x Hx Hkind)
             | rewrite (present_not_string x Hx Hkind)
             | rewrite (theme_not_string x Hx Hkind)
             | rewrite (themes_not_array x Hx Hkind) ].
  all: rewrite ?orb_true_r; reflexivity.
Qed.

(** Whatever the disk does, a document that fails validation makes
    [loadSettings] return the defaults. *)
Lemma invalid_document_gives_defaults (w : world) (doc : value) :
  settingsCache w = None ->
  settingsFile w = Some (Json doc) ->
  isValidSettingsObject doc = false ->
  fst (loadSettings w) = Ok (getDefaultSettings (defaultStoragePath w)).
Proof.
  intros Hcache Hfile Hinvalid. unfold loadSettings.
  rewrite Hcache, Hfile, Hinvalid; cbn [negb].
  destruct (readFails w); [reflexivity |].
  unfold save_in_try.
  destruct (saveSettings _ _) as [[u | e] w']; reflexivity.
Qed.

End SettingsFacts.

(** C2: a document with a checked field of the wrong type is rejected
    as a whole, and the first [load()] that reads it returns the
    compiled-in defaults, every category of them. *)
Theorem wrong_typed_field_loads_defaults (w : Settings.world) (doc : value) :
  Settings.settingsCache w = None ->
  Settings.settingsFile w = Some (Settings.Json doc) ->
  Settings.wrong_typed_field doc ->
  Settings.isValidSettingsObject doc = false
  /\ fst (Settings.loadSettings w)
     = Ok (Settings.getDefaultSettings (Settings.defaultStoragePath w)).
Proof.
  intros Hcache Hfile Hwrong.
  pose proof (wrong_typed_field_rejected doc Hwrong) as Hinvalid.
  split; [assumption |].
  apply (invalid_document_gives_defaults w doc); assumption.
Qed.

Lemma wrong_typed_field_loads_defaults_witness :
  Settings.isValidSettingsObject Scenarios.bad_port_document = false
  /\ fst (Settings.loadSettings Scenarios.bad_port_world) = Ok Scenarios.defaults.
Proof.
  apply (wrong_typed_field_loads_defaults Scenarios.bad_port_world
           Scenarios.bad_port_document); try reflexivity.
  exists "network", "proxyPort", Settings.KNumber,
    [("network", VObj [("proxyPort", VStr "not-a-number")])],
    [("proxyPort", VStr "not-a-number")], (VStr "not-a-number").
  repeat split; [left; reflexivity | discriminate].
Defined.

(** C3, as the code has it: a settings file that cannot be read or
    parsed is left as it is on disk and the defaults are used in memory
    only; a file that parses but fails validation is replaced by the
    saved defaults, as a missing file is. *)
Theorem load_fallback_persistence (w : Settings.world) :
  Settings.settingsCache w = None ->
  let defaults := Settings.getDefaultSettings (Settings.defaultStoragePath w) in
  let saved :=
    Some (Settings.Json (Settings.to_json (Settings.settings_value defaults))) in
  let healthy :=
    (Settings.dirExists w = true \/ Settings.mkdirFails w = false)
    /\ Settings.writeFails w = false /\ Settings.renameFails w = false in
  (Settings.settingsFile w = Some Settings.Garbage
   \/ (Settings.settingsFile w <> None /\ Settings.readFails w = true) ->
   fst (Settings.loadSettings w) = Ok defaults
   /\ Settings.disk (snd (Settings.loadSettings w)) = Settings.disk w)
  /\ (forall doc,
        Settings.settingsFile w = Some (Settings.Json doc) ->
        Settings.readFails w = false ->
        Settings.isValidSettingsObject doc = false ->
        healthy ->
        fst (Settings.loadSettings w) = Ok defaults
        /\ Settings.settingsFile (snd (Settings.loadSettings w)) = saved)
  /\ (Settings.settingsFile w = None ->
      healthy ->
      fst (Settings.loadSettings w) = Ok defaults
      /\ Settings.settingsFile (snd (Settings.loadSettings w)) = saved).
Proof.
  intros Hcache defaults saved healthy.
  assert (Hmk : healthy ->
                negb (Settings.dirExists w) && Settings.mkdirFails w = false
                /\ Settings.writeFails w = false
                /\ Settings.renameFails w = false).
  { intros ([Hd | Hm] & Hw & Hr); repeat split; try assumption.
    - rewrite Hd; reflexivity.
    - rewrite Hm; apply andb_false_r. }
  unfold Settings.loadSettings; rewrite Hcache.
  split; [| split].
  - intros [Hfile | [Hfile Hread]].
    + rewrite Hfile. destruct (Settings.readFails w); split; reflexivity.
    + destruct (Settings.settingsFile w); [| contradiction].
      rewrite Hread; split; reflexivity.
  - intros doc Hfile Hread Hinvalid Hhealthy.
    destruct (Hmk Hhealthy) as (Hdir & Hwrite & Hrename).
    rewrite Hfile, Hread, Hinvalid; cbn [negb].
    unfold Settings.save_in_try, Settings.saveSettings.
    cbn [Settings.dirExists Settings.mkdirFails Settings.writeFails
         Settings.renameFails Settings.with_cache Settings.with_dir
         Settings.with_files].
    rewrite Hdir, Hwrite, Hrename. split; reflexivity.
  - intros Hfile Hhealthy.
    destruct (Hmk Hhealthy) as (Hdir & Hwrite & Hrename).
    rewrite Hfile.
    unfold Settings.saveSettings.
    cbn [Settings.dirExists Settings.mkdirFails Settings.writeFails
         Settings.renameFails Settings.with_cache Settings.with_dir
         Settings.with_files].
    rewrite Hdir, Hwrite, Hrename. split; reflexivity.
Qed.

Lemma load_fallback_persistence_witness :
  fst (Settings.loadSettings Scenarios.garbage_world) = Ok Scenarios.defaults
  /\ Settings.disk (snd (Settings.loadSettings Scenarios.garbage_world))
     = Settings.disk Scenarios.garbage_world.
Proof.
  apply (proj1 (load_fallback_persistence Scenarios.garbage_world eq_refl)).
  left; reflexivity.
Defined.

(** A file whose port is a string fails validation, and after
    [load()] the disk holds the defaults in its place. *)
Lemma invalid_file_is_overwritten :
  Settings.isValidSettingsObject Scenarios.bad_port_document = false
  /\ Settings.settingsFile Scenarios.bad_port_world
     = Some (Settings.Json Scenarios.bad_port_document)
  /\ Settings.settingsFile (snd (Settings.loadSettings Scenarios.bad_port_world))
     = Some (Settings.Json
               (Settings.to_json (Settings.settings_value Scenarios.defaults)))
  /\ Settings.settingsFile (snd (Settings.loadSettings Scenarios.bad_port_world))
     <> Settings.settingsFile Scenarios.bad_port_world.
Proof.
  repeat split. vm_compute. discriminate.
Qed.

(** ** Storage HTTP client *)

Section HttpClientFacts.

Import HttpClient.

Variables (c : StorageHTTPClient) (net : network ListResult).

(** When the list call throws: the request is rejected, the status is
    not a success, or a body that is not empty is not JSON. *)
Lemma listBags_throws_when :
  throws (listBags c net) =
    match net (list_request c) with
    | Rejected _ => true
    | Resolved r =>
        negb (response_ok r)
        || (negb (String.eqb (response_text r) "")
            && match response_json r with Some _ => false | None => true end)
    end.
Proof.
  unfold listBags, fetch, list_request.
  destruct (net _) as [e | r]; [reflexivity |].
  destruct (response_ok r); cbn [negb orb bind]; [| reflexivity].
  destruct (String.eqb (response_text r) ""); cbn [negb andb bind]; [reflexivity |].
  destruct (response_json r); reflexivity.
Qed.

End HttpClientFacts.

(** C8: [ping] always resolves, never rejects: to false when the list
    call throws, as it does when the daemon cannot be reached or answers
    with a status that is not a success, and to true when the list call
    succeeds. *)
Theorem ping_never_throws (c : HttpClient.StorageHTTPClient)
  (net : HttpClient.network HttpClient.ListResult) :
  HttpClient.ping c net = Ok (negb (throws (HttpClient.listBags c net)))
  /\ (forall e, net (HttpClient.list_request c) = HttpClient.Rejected e ->
      HttpClient.listBags c net = Throw e
      /\ HttpClient.ping c net = Ok false)
  /\ (forall r, net (HttpClient.list_request c) = HttpClient.Resolved r ->
      HttpClient.response_ok r = false ->
      throws (HttpClient.listBags c net) = true
      /\ HttpClient.ping c net = Ok false).
Proof.
  split; [| split].
  - unfold HttpClient.ping.
    destruct (HttpClient.listBags c net); reflexivity.
  - intros e Hnet. unfold HttpClient.ping, HttpClient.listBags, HttpClient.fetch.
    fold (HttpClient.list_request c). rewrite Hnet. split; reflexivity.
  - intros r Hnet Hstatus.
    unfold HttpClient.ping, HttpClient.listBags, HttpClient.fetch.
    fold (HttpClient.list_request c). rewrite Hnet, Hstatus. split; reflexivity.
Qed.

(** ** Storage manager without a client *)

(** C10: with no HTTP client held, [listBags] resolves to the empty
    list, while [addBag], [removeBag], [pauseBag] and [getBagDetails]
    reject with "Storage daemon not running"; no request is sent. *)
Theorem bag_operations_without_client (m : StorageManager.t)
  (list_net : HttpClient.network HttpClient.ListResult)
  (ok_net : HttpClient.network HttpClient.OkResult)
  (details_net : HttpClient.network HttpClient.BagDetails)
  (bagId : string) (downloadPath : option string) (withFiles : bool) :
  StorageManager.client m = None ->
  StorageManager.listBags list_net m = Ok []
  /\ StorageManager.addBag ok_net bagId downloadPath m
     = Throw "Storage daemon not running"
  /\ StorageManager.removeBag ok_net bagId withFiles m
     = Throw "Storage daemon not running"
  /\ StorageManager.pauseBag ok_net bagId m
     = Throw "Storage daemon not running"
  /\ StorageManager.getBagDetails details_net bagId m
     = Throw "Storage daemon not running".
Proof.
  intros Hclient.
  unfold StorageManager.listBags, StorageManager.addBag,
    StorageManager.removeBag, StorageManager.pauseBag,
    StorageManager.getBagDetails.
  rewrite Hclient. repeat split.
Qed.

Lemma bag_operations_without_client_witness :
  StorageManager.listBags Scenarios.unreachable Scenarios.fresh_storage = Ok []
  /\ StorageManager.addBag Scenarios.unreachable "a1b2" None Scenarios.fresh_storage
     = Throw "Storage daemon not running"
  /\ StorageManager.removeBag Scenarios.unreachable "a1b2" false
       Scenarios.fresh_storage
     = Throw "Storage daemon not running"
  /\ StorageManager.pauseBag Scenarios.unreachable "a1b2" Scenarios.fresh_storage
     = Throw "Storage daemon not running"
  /\ StorageManager.getBagDetails Scenarios.unreachable "a1b2"
       Scenarios.fresh_storage
     = Throw "Storage daemon not running".
Proof.
  apply (bag_operations_without_client Scenarios.fresh_storage
           Scenarios.unreachable Scenarios.unreachable Scenarios.unreachable
           "a1b2" None false).
  reflexivity.
Defined.

(** ** Process managers: a start that fails on readiness *)

Section ProxyManagerFacts.

Import ChildProcess ProxyManager.

(** What is emitted for an event of the child never reports the proxy
    ready. *)
Lemma deliver_emits_nothing_ready (ev : event) (m : t) :
  exists added,
    emitted (deliver ev m) = (emitted m ++ added)%list
    /\ existsb reports_ready added = false.
Proof.
  unfold deliver. destruct (attached m).
  - destruct ev as [data | data | code | message]; cbn [on_event].
    + destruct (truthy (anonymousMode (emit (EmitLog (trim data)) m)));
        exists [EmitLog (trim data)]; split; reflexivity.
    + destruct (String.eqb (trim data) "").
      * exists []; split; [symmetry; apply app_nil_r | reflexivity].
      * exists [EmitError (trim data)]; split; reflexivity.
    + exists [EmitStatus Stopped; EmitExit code]; split; [| reflexivity].
      cbn. rewrite <- app_assoc. reflexivity.
    + exists [EmitError message]; split; reflexivity.
  - exists []; split; [symmetry; apply app_nil_r | reflexivity].
Qed.

(** An event other than the exit of the child leaves the handle, the
    status and the listeners as they are. *)
Lemma deliver_keeps_handle (ev : event) (m : t) :
  is_exit ev = false ->
  process (deliver ev m) = process m
  /\ status (deliver ev m) = status m
  /\ attached (deliver ev m) = attached m.
Proof.
  intros Hev. unfold deliver. destruct (attached m) eqn:Hatt; [| auto].
  destruct ev as [data | data | code | message]; cbn [on_event];
    try discriminate Hev.
  - destruct (truthy _); cbn; auto.
  - destruct (String.eqb _ _); cbn; auto.
  - cbn; auto.
Qed.

Lemma await_marker_keeps_handle (evs : list event) :
  existsb is_exit evs = false ->
  forall m,
    process (snd (await_marker evs m)) = process m
    /\ status (snd (await_marker evs m)) = status m
    /\ exists added,
         emitted (snd (await_marker evs m)) = (emitted m ++ added)%list
         /\ existsb reports_ready added = false.
Proof.
  induction evs as [| ev evs IH]; intros Hquiet m.
  - cbn. repeat split. exists []. split; [symmetry; apply app_nil_r | reflexivity].
  - cbn [existsb] in Hquiet. apply orb_false_iff in Hquiet as [Hev Hrest].
    destruct (deliver_keeps_handle ev m Hev) as (Hp & Hs & _).
    destruct (deliver_emits_nothing_ready ev m) as (a1 & He1 & Hr1).
    assert (Hnow : process (deliver ev m) = process m
                   /\ status (deliver ev m) = status m
                   /\ exists added,
                        emitted (deliver ev m) = (emitted m ++ added)%list
                        /\ existsb reports_ready added = false).
    { repeat split; try assumption. exists a1; split; assumption. }
    assert (Hlater : process (snd (await_marker evs (deliver ev m))) = process m
                     /\ status (snd (await_marker evs (deliver ev m))) = status m
                     /\ exists added,
                          emitted (snd (await_marker evs (deliver ev m)))
                          = (emitted m ++ added)%list
                          /\ existsb reports_ready added = false).
    { destruct (IH Hrest (deliver ev m)) as (Hp' & Hs' & a2 & He2 & Hr2).
      repeat split; try congruence.
      exists (a1 ++ a2)%list. split.
      - rewrite He2, He1, app_assoc. reflexivity.
      - rewrite existsb_app, Hr1, Hr2. reflexivity. }
    cbn [await_marker].
    destruct ev as [data | data | code | message]; try exact Hlater.
    destruct (str_includes data "Proxy listening"); [exact Hnow | exact Hlater].
Qed.

(** While a handle is held, [start] rejects and changes nothing. *)
Lemma start_rejected_while_held (env : start_env) (m : t) :
  process m <> None -> start env m = (Throw already_running, m).
Proof.
  intros Hheld. unfold start. destruct (process m); [reflexivity | contradiction].
Qed.

Lemma quiet_steps_keep_handle (steps : list step) :
  forallb quiet steps = true ->
  forall m, process m <> None -> process (run steps m) <> None.
Proof.
  induction steps as [| s steps IH]; intros Hquiet m Hheld; [exact Hheld |].
  cbn [forallb] in Hquiet. apply andb_true_iff in Hquiet as [Hs Hrest].
  unfold run; cbn [fold_left]. apply (IH Hrest).
  destruct s as [env | | ev]; cbn [do_step].
  - rewrite start_rejected_while_held by assumption. exact Hheld.
  - discriminate Hs.
  - destruct (deliver_keeps_handle ev m) as (Hp & _).
    + unfold quiet in Hs; cbn in Hs. destruct (is_exit ev); [discriminate | reflexivity].
    + rewrite Hp. exact Hheld.
Qed.

Lemma stop_clears_handle (m : t) : process (stop m) = None.
Proof.
  unfold stop. cbn [process set_interval].
  destruct (process m) eqn:Hp; [reflexivity | cbn; exact Hp].
Qed.

(** The proxy half of the statement on failed starts. *)
Lemma proxy_failed_start (env : start_env) (m : t) :
  fst (start env m) = Throw timeout_error ->
  existsb is_exit (before_timeout env) = false ->
  let m' := snd (start env m) in
  process m' <> None
  /\ status m' = Starting
  /\ (exists added,
        emitted m' = (emitted m ++ added)%list
        /\ existsb reports_ready added = false)
  /\ (forall steps env',
        forallb quiet steps = true ->
        start env' (run steps m') = (Throw already_running, run steps m'))
  /\ process (stop m') = None.
Proof.
  intros Hfail Hquiet m'.
  assert (Hm' : process m' <> None
                /\ status m' = Starting
                /\ exists added,
                     emitted m' = (emitted m ++ added)%list
                     /\ existsb reports_ready added = false).
  { subst m'. revert Hfail. unfold start.
    destruct (process m); [discriminate |].
    unfold waitForReady.
    match goal with
    | |- context [await_marker ?evs ?m0] =>
        destruct (await_marker_keeps_handle evs Hquiet m0)
          as (Hp & Hs & added & He & Hr);
        destruct (await_marker evs m0) as [[u | e] m1]
    end; [discriminate |].
    intros _. cbn [snd] in *.
    rewrite Hp, Hs. repeat split; [discriminate |].
    exists (EmitStatus Starting :: added). split.
    - rewrite He. cbn. rewrite <- app_assoc. reflexivity.
    - cbn. exact Hr. }
  destruct Hm' as (Hheld & Hstatus & Hemitted).
  repeat split; try assumption.
  - intros steps env' Hsteps.
    apply start_rejected_while_held, quiet_steps_keep_handle; assumption.
  - apply stop_clears_handle.
Qed.

End ProxyManagerFacts.


Section StorageManagerFacts.

Import ChildProcess StorageManager.

Lemma same_handle_refl (m : t) : same_handle m m.
Proof.
  repeat split. exists []. split; [symmetry; apply app_nil_r | reflexivity].
Qed.

Lemma same_handle_trans (m1 m2 m3 : t) :
  same_handle m1 m2 -> same_handle m2 m3 -> same_handle m1 m3.
Proof.
  intros (Hp & Hc & Hr & Ha & a1 & He1 & Hs1) (Hp' & Hc' & Hr' & Ha' & a2 & He2 & Hs2).
  repeat split; try congruence.
  exists (a1 ++ a2)%list. split.
  - rewrite He2, He1, app_assoc. reflexivity.
  - rewrite existsb_app, Hs1, Hs2. reflexivity.
Qed.

Lemma same_handle_emit (e : emission) (m : t) :
  reports_started e = false -> same_handle m (emit e m).
Proof.
  intros He. repeat split. exists [e]. split; [reflexivity |].
  cbn. rewrite He. reflexivity.
Qed.

(** An event other than the exit of the child keeps the handle. *)
Lemma storage_deliver_keeps_handle (ev : event) (m : t) :
  is_exit ev = false -> same_handle m (deliver ev m).
Proof.
  intros Hev. unfold deliver. destruct (attached m); [| apply same_handle_refl].
  destruct ev as [data | data | code | message]; cbn [on_event];
    try discriminate Hev.
  - destruct (String.eqb _ _);
      [apply same_handle_refl | apply same_handle_emit; reflexivity].
  - destruct (String.eqb _ _);
      [apply same_handle_refl | apply same_handle_emit; reflexivity].
  - apply same_handle_emit; reflexivity.
Qed.

Lemma deliver_all_keeps_handle (evs : list event) :
  existsb is_exit evs = false ->
  forall m, same_handle m (deliver_all evs m).
Proof.
  induction evs as [| ev evs IH]; intros Hquiet m; [apply same_handle_refl |].
  cbn [existsb] in Hquiet. apply orb_false_iff in Hquiet as [Hev Hrest].
  unfold deliver_all; cbn [fold_left].
  apply (same_handle_trans m (deliver ev m)).
  - apply storage_deliver_keeps_handle; assumption.
  - apply (IH Hrest).
Qed.

Lemma calm_rounds (a : attempt) :
  calm a = true ->
  existsb is_exit (during_ping a) = false
  /\ existsb is_exit (during_sleep a) = false.
Proof.
  unfold calm. intros H. apply andb_true_iff in H as [H1 H2].
  split; apply negb_true_iff; assumption.
Qed.

Lemma waitForReady_keeps_handle (rounds : nat -> attempt) (left : nat) :
  forall i m,
    (forall j, (i <= j < i + left)%nat -> calm (rounds j) = true) ->
    same_handle m (snd (waitForReady left i rounds m)).
Proof.
  induction left as [| left IH]; intros i m Hcalm; cbn [waitForReady].
  - apply same_handle_refl.
  - destruct (client m) as [c |]; [| apply same_handle_refl].
    destruct (calm_rounds (rounds i)) as [Hping Hsleep]; [apply Hcalm; lia |].
    pose proof (deliver_all_keeps_handle _ Hping m) as H1.
    destruct (HttpClient.ping c (ping_network (rounds i))) as [[|] | e];
      cbn [snd]; try exact H1.
    apply (same_handle_trans m (deliver_all (during_ping (rounds i)) m));
      [exact H1 |].
    apply (same_handle_trans _
             (deliver_all (during_sleep (rounds i))
                (deliver_all (during_ping (rounds i)) m))).
    + apply deliver_all_keeps_handle; assumption.
    + apply IH. intros j Hj. apply Hcalm. lia.
Qed.

Lemma storage_start_rejected_while_held (env : start_env) (m : t) :
  process m <> None -> start env m = (Throw already_running, m).
Proof.
  intros Hheld. unfold start. destruct (process m); [reflexivity | contradiction].
Qed.

Lemma storage_quiet_steps_keep_handle (steps : list step) :
  forallb quiet steps = true ->
  forall m, process m <> None -> process (run steps m) <> None.
Proof.
  induction steps as [| s steps IH]; intros Hquiet m Hheld; [exact Hheld |].
  cbn [forallb] in Hquiet. apply andb_true_iff in Hquiet as [Hs Hrest].
  unfold run; cbn [fold_left]. apply (IH Hrest).
  destruct s as [env | | ev]; cbn [do_step].
  - rewrite storage_start_rejected_while_held by assumption. exact Hheld.
  - discriminate Hs.
  - destruct (storage_deliver_keeps_handle ev m) as (Hp & _).
    + unfold quiet in Hs; cbn in Hs. destruct (is_exit ev); [discriminate | reflexivity].
    + rewrite Hp. exact Hheld.
Qed.

Lemma storage_stop_clears_handle (m : t) : process (stop m) = None.
Proof.
  unfold stop, stopPolling. cbn [process set_pollInterval].
  destruct (process m) eqn:Hp; [reflexivity | cbn; exact Hp].
Qed.

(** The storage half of the statement on failed starts. *)
Lemma storage_failed_start (env : start_env) (m : t) :
  fst (start env m) = Throw not_ready ->
  mkdir_error env = None ->
  (forall i, (i < 30)%nat -> calm (rounds env i) = true) ->
  let m' := snd (start env m) in
  process m' <> None
  /\ isRunning m' = isRunning m
  /\ (exists added,
        emitted m' = (emitted m ++ added)%list
        /\ existsb reports_started added = false)
  /\ (forall steps env',
        forallb quiet steps = true ->
        start env' (run steps m') = (Throw already_running, run steps m'))
  /\ process (stop m') = None.
Proof.
  intros Hfail Hmkdir Hcalm m'.
  assert (Hm' : process m' <> None
                /\ isRunning m' = isRunning m
                /\ exists added,
                     emitted m' = (emitted m ++ added)%list
                     /\ existsb reports_started added = false).
  { subst m'. revert Hfail. unfold start.
    destruct (process m); [discriminate |].
    rewrite Hmkdir.
    match goal with
    | |- context [waitForReady 30 0 ?r ?m0] =>
        destruct (waitForReady_keeps_handle r 30 0 m0)
          as (Hp & _ & Hr & _ & added & He & Hs);
        [intros j Hj; apply Hcalm; lia |];
        destruct (waitForReady 30 0 r m0) as [[u | e] m1]
    end; [discriminate |].
    intros _. cbn [snd] in *.
    rewrite Hp, Hr. repeat split; [discriminate |].
    exists added. exact (conj He Hs). }
  destruct Hm' as (Hheld & Hrunning & Hemitted).
  repeat split; try assumption.
  - intros steps env' Hsteps.
    apply storage_start_rejected_while_held, storage_quiet_steps_keep_handle;
      assumption.
  - apply storage_stop_clears_handle.
Qed.

End StorageManagerFacts.

(** C9, with the exit of the child taken into account: when [start]
    rejects on the readiness wait and the child has not exited
    meanwhile, the handle is still held and nothing has reported the
    manager ready or running; from then on every [start], whatever
    calls of [start] and events of the child other than its exit come
    before it, rejects with the already-running error and changes
    nothing; [stop] clears the handle.  This holds for the proxy
    manager and for the storage manager. *)
Theorem failed_start_keeps_handle :
  (forall (env : ProxyManager.start_env) (m : ProxyManager.t),
      fst (ProxyManager.start env m) = Throw ProxyManager.timeout_error ->
      existsb ChildProcess.is_exit (ProxyManager.before_timeout env) = false ->
      let m' := snd (ProxyManager.start env m) in
      ProxyManager.process m' <> None
      /\ ProxyManager.status m' = ProxyManager.Starting
      /\ (exists added,
            ProxyManager.emitted m' = (ProxyManager.emitted m ++ added)%list
            /\ existsb ProxyManager.reports_ready added = false)
      /\ (forall steps env',
            forallb ProxyManager.quiet steps = true ->
            ProxyManager.start env' (ProxyManager.run steps m')
            = (Throw ProxyManager.already_running, ProxyManager.run steps m'))
      /\ ProxyManager.process (ProxyManager.stop m') = None)
  /\ (forall (env : StorageManager.start_env) (m : StorageManager.t),
      fst (StorageManager.start env m) = Throw StorageManager.not_ready ->
      StorageManager.mkdir_error env = None ->
      (forall i, (i < 30)%nat ->
                 StorageManager.calm (StorageManager.rounds env i) = true) ->
      let m' := snd (StorageManager.start env m) in
      StorageManager.process m' <> None
      /\ StorageManager.isRunning m' = StorageManager.isRunning m
      /\ (exists added,
            StorageManager.emitted m' = (StorageManager.emitted m ++ added)%list
            /\ existsb StorageManager.reports_started added = false)
      /\ (forall steps env',
            forallb StorageManager.quiet steps = true ->
            StorageManager.start env' (StorageManager.run steps m')
            = (Throw StorageManager.already_running, StorageManager.run steps m'))
      /\ StorageManager.process (StorageManager.stop m') = None).
Proof.
  split; [exact proxy_failed_start | exact storage_failed_start].
Qed.

Lemma failed_start_keeps_handle_witness :
  (ProxyManager.process
     (snd (ProxyManager.start Scenarios.proxy_silent ProxyManager.new)) <> None
   /\ ProxyManager.status
        (snd (ProxyManager.start Scenarios.proxy_silent ProxyManager.new))
      = ProxyManager.Starting)
  /\ (StorageManager.process
        (snd (StorageManager.start (Scenarios.storage_env Scenarios.unreachable)
                Scenarios.fresh_storage)) <> None
      /\ StorageManager.isRunning
           (snd (StorageManager.start (Scenarios.storage_env Scenarios.unreachable)
                   Scenarios.fresh_storage)) = false).
Proof.
  split.
  - pose proof (proj1 failed_start_keeps_handle Scenarios.proxy_silent
                  ProxyManager.new eq_refl eq_refl) as H.
    cbv zeta in H. exact (conj (proj1 H) (proj1 (proj2 H))).
  - pose proof (proj2 failed_start_keeps_handle
                  (Scenarios.storage_env Scenarios.unreachable)
                  Scenarios.fresh_storage eq_refl eq_refl
                  (fun i _ => eq_refl)) as H.
    cbv zeta in H. exact (conj (proj1 H) (proj1 (proj2 H))).
Defined.

(** The exit handler clears the handle too.  After a start that timed
    out, the exit of the child lets the next [start] through although
    [stop] was never called; and when the child exits during the wait,
    the start that times out leaves no handle at all. *)
Lemma exit_after_failed_start_frees_start :
  let p1 := snd (ProxyManager.start Scenarios.proxy_silent ProxyManager.new) in
  let p2 := ProxyManager.deliver (ChildProcess.ExitEvent (Some 1)) p1 in
  let s1 :=
    snd (StorageManager.start (Scenarios.storage_env Scenarios.unreachable)
           Scenarios.fresh_storage) in
  let s2 := StorageManager.deliver (ChildProcess.ExitEvent (Some 1)) s1 in
  (fst (ProxyManager.start Scenarios.proxy_silent ProxyManager.new)
   = Throw ProxyManager.timeout_error
   /\ ProxyManager.process p2 = None
   /\ fst (ProxyManager.start Scenarios.proxy_ready p2) = Ok tt)
  /\ (fst (ProxyManager.start Scenarios.proxy_crashing ProxyManager.new)
      = Throw ProxyManager.timeout_error
      /\ ProxyManager.process
           (snd (ProxyManager.start Scenarios.proxy_crashing ProxyManager.new))
         = None)
  /\ (fst (StorageManager.start (Scenarios.storage_env Scenarios.unreachable)
             Scenarios.fresh_storage)
      = Throw StorageManager.not_ready
      /\ StorageManager.process s2 = None
      /\ fst (StorageManager.start (Scenarios.storage_env Scenarios.answering) s2)
         = Ok tt).
Proof. cbv zeta. repeat split. Qed.

(** ** The repository's unit tests, run on the embedding *)

Example test_navigation_urls :
  map (fun url => Validation.valid (Validation.isValidNavigationUrl URL.protocol url))
    ["http://example.com"; "https://example.com"; "ton://start"; "example.com";
     "javascript:alert(1)"; "data:text/html,<script>alert(1)</script>";
     "file:///etc/passwd"; "not a valid url at all :::"]
  = [true; true; true; true; false; false; false; false].
Proof. reflexivity. Qed.

Example test_port_table :
  map (fun port => Validators.validatePort port Validators.defaultPort)
    [VNum (of_Z 0); VNum (of_Z 123); VNum (of_Z 1023); VNum (of_Z 65536);
     VStr "8080"; VNull; VNum (of_Z 1024); VNum (of_Z 8080); VNum (of_Z 65535)]
  = map of_Z [8080; 8080; 8080; 8080; 8080; 8080; 1024; 8080; 65535].
Proof. reflexivity. Qed.

Example test_rate_limiter_expiry :
  fst (Validation.check_all [0; 400; 800; 800; 1100]
         (Validation.new_RateLimiter 3 1000))
  = [true; true; true; false; true].
Proof. reflexivity. Qed.

Example test_settings_documents :
  map Settings.isValidSettingsObject
    [VObj []; VNull; VArr []; VStr "string";
     VObj [("network", VStr "invalid")];
     VObj [("unknownCategory", VObj [("foo", VStr "bar")])];
     Settings.settings_value Scenarios.defaults]
  = [true; false; false; false; false; true; true].
Proof. reflexivity. Qed.

Example test_storage_start_and_stop :
  let started :=
    StorageManager.start (Scenarios.storage_env Scenarios.answering)
      Scenarios.fresh_storage in
  fst started = Ok tt
  /\ StorageManager.isRunning (snd started) = true
  /\ StorageManager.emitted (snd started) = [StorageManager.EmitStarted]
  /\ StorageManager.emitted (StorageManager.stop (snd started))
     = [StorageManager.EmitStarted; StorageManager.EmitStopped]
  /\ StorageManager.stop Scenarios.fresh_storage = Scenarios.fresh_storage.
Proof. cbv zeta. repeat split. Qed.

Example test_proxy_happy_path :
  let started := ProxyManager.start Scenarios.proxy_ready ProxyManager.new in
  fst started = Ok tt
  /\ ProxyManager.status (snd started) = ProxyManager.Syncing
  /\ ProxyManager.status
       (ProxyManager.sync_tick (ProxyManager.Response 502) (snd started))
     = ProxyManager.Syncing
  /\ ProxyManager.status
       (ProxyManager.sync_tick (ProxyManager.Response 200) (snd started))
     = ProxyManager.Connected
  /\ ProxyManager.syncCheckInterval
       (ProxyManager.sync_tick (ProxyManager.Response 200) (snd started))
     = None.
Proof. cbv zeta. repeat split. Qed.

(** * Further properties of the code *)

(** ** Spawn arguments *)

Lemma validatePort_default_or_range (p : value) (d : number) :
  p <> VNum NaN ->
  Validators.validatePort p d = d
  \/ Validators.port_in_range (VNum (Validators.validatePort p d)).
Proof.
  intros Hnan.
  destruct p as [| | b | n | s | l | o]; try (left; reflexivity).
  destruct n as [q | | |]; try (left; reflexivity); [| congruence].
  unfold Validators.validatePort, gtb, ltb, of_Z.
  destruct (Qle_bool (inject_Z 1024) q) eqn:Hlo; [| left; reflexivity].
  destruct (Qle_bool q (inject_Z 65535)) eqn:Hhi; [| left; reflexivity].
  right. exists q. repeat split; apply Qle_bool_iff; assumption.
Qed.

Lemma default_ports_in_range :
  Validators.port_in_range (VNum Validators.defaultPort)
  /\ Validators.port_in_range (VNum Validators.storageDefaultPort).
Proof.
  split; eexists; (split; [reflexivity |]); split; apply Qle_bool_iff; reflexivity.
Qed.

(** Whatever value other than NaN the settings hold, the port handed to
    the spawned process lies in [1024, 65535] (with either default), and
    the verbosity in [0, 5]. *)
Theorem sanitized_arguments_in_range (p v : value) :
  p <> VNum NaN -> v <> VNum NaN ->
  Validators.port_in_range (VNum (Validators.validatePort p Validators.defaultPort))
  /\ Validators.port_in_range
       (VNum (Validators.validatePort p Validators.storageDefaultPort))
  /\ exists q,
       Validators.validateVerbosity v Validators.defaultVerbosity = Finite q
       /\ (inject_Z 0 <= q)%Q /\ (q <= inject_Z 5)%Q.
Proof.
  intros Hp Hv. destruct default_ports_in_range as [H8080 H5555].
  split; [| split].
  - destruct (validatePort_default_or_range p Validators.defaultPort Hp) as [-> | H];
      assumption.
  - destruct (validatePort_default_or_range p Validators.storageDefaultPort Hp)
      as [-> | H]; assumption.
  - assert (Hdefault : exists q,
               Validators.defaultVerbosity = Finite q
               /\ (inject_Z 0 <= q)%Q /\ (q <= inject_Z 5)%Q).
    { eexists; split; [reflexivity |]; split; apply Qle_bool_iff; reflexivity. }
    destruct v as [| | b | n | s | l | o]; try exact Hdefault.
    destruct n as [q | | |]; try exact Hdefault; [| congruence].
    unfold Validators.validateVerbosity, gtb, ltb, of_Z.
    destruct (Qle_bool (inject_Z 0) q) eqn:Hlo; [| exact Hdefault].
    destruct (Qle_bool q (inject_Z 5)) eqn:Hhi; [| exact Hdefault].
    exists q. repeat split; apply Qle_bool_iff; assumption.
Qed.

Lemma sanitized_arguments_in_range_witness :
  Validators.port_in_range
    (VNum (Validators.validatePort (VStr "8080") Validators.defaultPort))
  /\ Validators.port_in_range
       (VNum (Validators.validatePort (VStr "8080") Validators.storageDefaultPort))
  /\ exists q,
       Validators.validateVerbosity (VNum (of_Z 9)) Validators.defaultVerbosity
       = Finite q
       /\ (inject_Z 0 <= q)%Q /\ (q <= inject_Z 5)%Q.
Proof.
  apply (sanitized_arguments_in_range (VStr "8080") (VNum (of_Z 9)));
    discriminate.
Defined.

(** ** Rate limiter: what a window lets through *)

Lemma filter_keeps_all {A} (f : A -> bool) (l : list A) :
  (forall x, In x l -> f x = true) -> filter f l = l.
Proof.
  induction l as [| a l IH]; intros Hall; [reflexivity |].
  cbn [filter]. rewrite (Hall a (or_introl eq_refl)), IH; [reflexivity |].
  intros x Hx. apply Hall. right. exact Hx.
Qed.

Lemma accepted_plus_history_bounded (times : list Z) :
  forall rl,
    (forall a b, In a times -> In b (Validation.calls rl ++ times)%list ->
                 a - b < Validation.windowMs rl) ->
    Z.of_nat (List.length (Validation.calls rl)) <= Validation.maxCalls rl ->
    Z.of_nat (List.length (filter (fun b => b) (fst (Validation.check_all times rl))))
    + Z.of_nat (List.length (Validation.calls rl))
    <= Validation.maxCalls rl.
Proof.
  induction times as [| now rest IH]; intros rl Hclose Hlen.
  - cbn. lia.
  - cbn [Validation.check_all]. unfold Validation.check.
    rewrite (filter_keeps_all
               (fun t => now - t <? Validation.windowMs rl) (Validation.calls rl)).
    2:{ intros t Ht. apply Z.ltb_lt. apply Hclose; [left; reflexivity |].
        apply in_or_app. left. exact Ht. }
    destruct (Z.of_nat (List.length (Validation.calls rl)) >=? Validation.maxCalls rl)
      eqn:Hfull.
    + match goal with
      | |- context [Validation.check_all rest ?r] =>
          specialize (IH r); destruct (Validation.check_all rest r) as [bs r']
      end.
      cbn [fst filter Validation.calls Validation.maxCalls Validation.windowMs] in *.
      apply IH; [| exact Hlen].
      intros a b Ha Hb. apply Hclose; [right; exact Ha |].
      apply in_app_or in Hb as [Hb | Hb]; apply in_or_app;
        [left; exact Hb | right; right; exact Hb].
    + match goal with
      | |- context [Validation.check_all rest ?r] =>
          specialize (IH r); destruct (Validation.check_all rest r) as [bs r']
      end.
      cbn [fst filter Validation.calls Validation.maxCalls Validation.windowMs
           List.length] in *.
      rewrite Z.geb_leb in Hfull. apply Z.leb_gt in Hfull.
      rewrite length_app in IH. cbn [List.length] in IH.
      assert (Hstep : Z.of_nat (List.length (filter (fun b => b) bs))
                      + Z.of_nat (List.length (Validation.calls rl) + 1)
                      <= Validation.maxCalls rl).
      { apply IH; [| lia].
        intros a b Ha Hb. apply Hclose; [right; exact Ha |].
        rewrite <- app_assoc in Hb. cbn [app] in Hb. exact Hb. }
      lia.
Qed.

(** Of calls made within less than one window of each other, a limiter
    without history accepts at most [maxCalls]. *)
Theorem RateLimiter_accepts_at_most_max (n w : Z) (times : list Z) :
  0 <= n ->
  (forall a b, In a times -> In b times -> a - b < w) ->
  Z.of_nat
    (List.length
       (filter (fun b => b)
          (fst (Validation.check_all times (Validation.new_RateLimiter n w)))))
  <= n.
Proof.
  intros Hn Hclose.
  pose proof (accepted_plus_history_bounded times (Validation.new_RateLimiter n w))
    as H.
  cbn [Validation.new_RateLimiter Validation.calls Validation.maxCalls
       Validation.windowMs app List.length Z.of_nat] in H.
  specialize (H Hclose Hn). lia.
Qed.

Lemma RateLimiter_accepts_at_most_max_witness :
  Z.of_nat
    (List.length
       (filter (fun b => b)
          (fst (Validation.check_all [0; 10; 20; 999]
                  (Validation.new_RateLimiter 2 1000)))))
  <= 2.
Proof.
  apply (RateLimiter_accepts_at_most_max 2 1000 [0; 10; 20; 999]); [lia |].
  intros a b Ha Hb. cbn [In] in Ha, Hb.
  repeat (destruct Ha as [<- | Ha]); try contradiction;
    repeat (destruct Hb as [<- | Hb]); try contradiction; lia.
Defined.

(** ** Navigation URLs: what is let through *)

(** Whatever the URL parser answers, an accepted URL either starts with
    [ton://] or parsed to a protocol of the allow-list, and a rejected
    one always carries an error message. *)
Theorem accepted_url_internal_or_allowed
  (URL_protocol : string -> option string) (url : string) :
  let r := Validation.isValidNavigationUrl URL_protocol url in
  (Validation.valid r = true ->
   startsWith url "ton://" = true
   \/ exists p, URL_protocol (Validation.urlToParse url) = Some p
                /\ In p Validation.ALLOWED_SCHEMES)
  /\ (Validation.valid r = false -> exists e, Validation.error r = Some e).
Proof.
  cbv zeta. unfold Validation.isValidNavigationUrl.
  destruct (startsWith url "ton://"); [split; [auto | discriminate] |].
  destruct (URL_protocol (Validation.urlToParse url)) as [p |].
  - destruct (includes_str Validation.ALLOWED_SCHEMES p) eqn:Hallowed; cbn [negb].
    + destruct (includes_str Validation.DANGEROUS_SCHEMES p) eqn:Hdanger.
      * rewrite (dangerous_not_allowed p Hdanger) in Hallowed. discriminate.
      * split; [| discriminate]. intros _. right. exists p. split; [reflexivity |].
        unfold includes_str in Hallowed. apply existsb_exists in Hallowed.
        destruct Hallowed as (x & Hin & Heq). apply String.eqb_eq in Heq.
        subst x. exact Hin.
    + split; [discriminate | intros _; eexists; reflexivity].
  - split; [discriminate | intros _; eexists; reflexivity].
Qed.

(** ** Download paths *)

(** On a platform other than Windows an accepted download path is a
    string that is not blank, is absolute, does not normalize to a
    system directory or below one, and normalizes to something that
    starts with the home directory, [/tmp] or [/home]. *)
Theorem accepted_download_path (os : DownloadPath.platform) (inputPath : value) :
  DownloadPath.win32 os = false ->
  Validation.valid (DownloadPath.isValidDownloadPath os inputPath) = true ->
  exists p,
    inputPath = VStr p
    /\ ChildProcess.trim p <> ""
    /\ DownloadPath.isAbsolute os p = true
    /\ Forall (fun blocked =>
                 DownloadPath.normalize os p <> blocked
                 /\ startsWith (DownloadPath.normalize os p) (blocked ++ "/") = false)
         DownloadPath.blockedPaths
    /\ ((DownloadPath.homedir os <> ""
         /\ startsWith (DownloadPath.normalize os p) (DownloadPath.homedir os) = true)
        \/ startsWith (DownloadPath.normalize os p) "/tmp" = true
        \/ startsWith (DownloadPath.normalize os p) "/home" = true).
Proof.
  intros Hunix. unfold DownloadPath.isValidDownloadPath.
  destruct inputPath as [| | b | n | p | l | o]; try discriminate.
  destruct (String.eqb (ChildProcess.trim p) "") eqn:Hblank; [discriminate |].
  destruct (DownloadPath.isAbsolute os p) eqn:Habs; cbn [negb]; [| discriminate].
  rewrite Hunix; cbn [negb andb].
  destruct (existsb _ DownloadPath.blockedPaths) eqn:Hblocked; [discriminate |].
  destruct (existsb _ (DownloadPath.allowedRoots os)) eqn:Hroot; [| discriminate].
  intros _. exists p. repeat split; try assumption.
  - apply String.eqb_neq. exact Hblank.
  - apply Forall_forall. intros blocked Hin.
    assert (Hb : DownloadPath.under_blocked (DownloadPath.normalize os p) blocked
                 = false).
    { destruct (DownloadPath.under_blocked _ blocked) eqn:E; [| reflexivity].
      assert (Hex : existsb
                      (DownloadPath.under_blocked (DownloadPath.normalize os p))
                      DownloadPath.blockedPaths = true).
      { apply existsb_exists. exists blocked. split; assumption. }
      rewrite Hex in Hblocked. discriminate. }
    unfold DownloadPath.under_blocked in Hb. apply orb_false_iff in Hb as [H1 H2].
    split; [apply String.eqb_neq; exact H1 | exact H2].
  - unfold DownloadPath.allowedRoots in Hroot. rewrite Hunix in Hroot.
    cbn [existsb] in Hroot. rewrite orb_false_r in Hroot.
    apply orb_true_iff in Hroot as [Hhome | Hroot].
    + left. unfold DownloadPath.under_root in Hhome.
      apply andb_true_iff in Hhome as [Hne Hst].
      apply negb_true_iff in Hne. split; [apply String.eqb_neq; exact Hne | exact Hst].
    + apply orb_true_iff in Hroot as [Htmp | Hh]; right; [left | right].
      * unfold DownloadPath.under_root in Htmp. exact Htmp.
      * unfold DownloadPath.under_root in Hh. exact Hh.
Qed.

Lemma accepted_download_path_witness :
  exists p,
    VStr "/home/user/Downloads" = VStr p
    /\ ChildProcess.trim p <> ""
    /\ DownloadPath.isAbsolute Scenarios.posix p = true
    /\ Forall (fun blocked =>
                 DownloadPath.normalize Scenarios.posix p <> blocked
                 /\ startsWith (DownloadPath.normalize Scenarios.posix p)
                      (blocked ++ "/") = false)
         DownloadPath.blockedPaths
    /\ ((DownloadPath.homedir Scenarios.posix <> ""
         /\ startsWith (DownloadPath.normalize Scenarios.posix p)
              (DownloadPath.homedir Scenarios.posix) = true)
        \/ startsWith (DownloadPath.normalize Scenarios.posix p) "/tmp" = true
        \/ startsWith (DownloadPath.normalize Scenarios.posix p) "/home" = true).
Proof.
  apply (accepted_download_path Scenarios.posix (VStr "/home/user/Downloads"));
    reflexivity.
Defined.

(** ** Settings store *)

(** Case analysis on every test the goal makes, outermost first. *)
Ltac break_matches :=
  repeat match goal with
    | |- context [match ?x with _ => _ end] =>
        lazymatch x with
        | context [match _ with _ => _ end] => fail
        | _ => destruct x eqn:?
        end
    end.

Section SettingsStoreFacts.

Import Settings.

Lemma lookup_set_same (k : string) (v : value) (o : object) :
  lookup k (set k v o) = Some v.
Proof.
  induction o as [| [k' v'] o IH]; cbn [set lookup].
  - rewrite String.eqb_refl. reflexivity.
  - destruct (String.eqb k k') eqn:E; cbn [lookup]; rewrite ?String.eqb_refl, ?E;
      [reflexivity | exact IH].
Qed.

Lemma lookup_set_other (k k' : string) (v : value) (o : object) :
  k <> k' -> lookup k (set k' v o) = lookup k o.
Proof.
  intros Hne. apply String.eqb_neq in Hne.
  induction o as [| [k2 v2] o IH]; cbn [set lookup].
  - rewrite Hne. reflexivity.
  - destruct (String.eqb k' k2) eqn:E; cbn [lookup].
    + apply String.eqb_eq in E. subst k2. rewrite Hne. reflexivity.
    + rewrite IH. reflexivity.
Qed.

Lemma lookup_absent (k : string) (o : object) :
  ~ In k (keys o) -> lookup k o = None.
Proof.
  induction o as [| [k' v'] o IH]; intros Hnot; [reflexivity |].
  cbn [lookup]. destruct (String.eqb k k') eqn:E.
  - apply String.eqb_eq in E. exfalso. apply Hnot. left. symmetry. exact E.
  - apply IH. intros Hin. apply Hnot. right. exact Hin.
Qed.

(** In [{ ...a, ...b }] a property of [b] wins, and a property that [b]
    lacks keeps the value it has in [a]. *)
Lemma lookup_spread (k : string) (b : object) :
  NoDup (keys b) ->
  forall a,
    lookup k (spread a b) =
      match lookup k b with
      | Some v => Some v
      | None => lookup k a
      end.
Proof.
  unfold spread.
  induction b as [| [k' v'] b IH]; intros Hnodup a; [reflexivity |].
  cbn [fold_left fst snd lookup]. cbn [keys map fst] in Hnodup.
  inversion Hnodup as [| x l Hnot Hrest]; subst.
  rewrite (IH Hrest).
  destruct (String.eqb k k') eqn:E.
  - apply String.eqb_eq in E. subst k'.
    rewrite (lookup_absent k b Hnot). apply lookup_set_same.
  - apply String.eqb_neq in E. rewrite (lookup_set_other k k' v' a E). reflexivity.
Qed.

Lemma prop_set_other (k k' : string) (v : value) (o : object) :
  k <> k' -> prop (set k' v o) k = prop o k.
Proof. intros H. unfold prop. rewrite lookup_set_other by exact H. reflexivity. Qed.

Lemma prop_set_same (k : string) (v : value) (o : object) :
  prop (set k v o) k = v.
Proof. unfold prop. rewrite lookup_set_same. reflexivity. Qed.

Lemma unknown_key_differs (k c : string) :
  includes_str categories k = false -> In c categories -> String.eqb c k = false.
Proof.
  intros Hk Hc. apply String.eqb_neq. intros ->.
  assert (H : includes_str categories k = true).
  { apply existsb_exists. exists k. split; [exact Hc | apply String.eqb_refl]. }
  rewrite H in Hk. discriminate.
Qed.

Lemma forallb_same {A} (f g : A -> bool) (l : list A) :
  (forall x, f x = g x) -> forallb f l = forallb g l.
Proof.
  intros H. induction l as [| a l IH]; [reflexivity |].
  cbn [forallb]. rewrite H, IH. reflexivity.
Qed.

(** After [loadSettings] the cache is filled, with what was returned. *)
Lemma load_fills_cache (w : world) :
  exists s,
    settingsCache (snd (loadSettings w)) = Some s
    /\ forall s0, fst (loadSettings w) = Ok s0 -> s0 = s.
Proof.
  unfold loadSettings, save_in_try, load_failed, saveSettings.
  cbn [dirExists mkdirFails writeFails renameFails with_dir with_files
       with_cache settingsCache].
  break_matches; cbn [fst snd settingsCache with_cache];
    eexists; (split; [first [reflexivity | eassumption] |]);
    intros s0 H; congruence.
Qed.

Lemma save_keeps_cached (s : AppSettings) (w : world) :
  settingsCache w = Some s -> settingsCache (snd (saveSettings s w)) = Some s.
Proof.
  intros Hc. unfold saveSettings.
  cbn [dirExists mkdirFails writeFails renameFails with_dir with_files].
  break_matches; cbn [snd settingsCache with_cache with_dir with_files];
    first [exact Hc | reflexivity].
Qed.

Lemma load_from_cache (s : AppSettings) (w : world) :
  settingsCache w = Some s -> loadSettings w = (Ok s, w).
Proof. intros H. unfold loadSettings. rewrite H. reflexivity. Qed.

Lemma merge_category_prop (d fields : object) (k : string) :
  NoDup (keys fields) ->
  prop (merge_category d (VObj fields)) k =
    match lookup k fields with
    | Some v => v
    | None => prop d k
    end.
Proof.
  intros Hnodup. unfold prop, merge_category.
  rewrite (lookup_spread k fields Hnodup d).
  destruct (lookup k fields); reflexivity.
Qed.

End SettingsStoreFacts.

(** A category that is not one of the six known ones does not change
    the verdict on a settings document, whatever it holds. *)
Theorem unknown_category_ignored (k : string) (v : value) (settings : object) :
  includes_str Settings.categories k = false ->
  Settings.isValidSettingsObject (VObj ((k, v) :: settings))
  = Settings.isValidSettingsObject (VObj settings).
Proof.
  intros Hk.
  assert (Hprop : forall c, In c Settings.categories ->
                            prop ((k, v) :: settings) c = prop settings c).
  { intros c Hc. unfold prop. cbn [lookup].
    rewrite (unknown_key_differs k c Hk Hc). reflexivity. }
  unfold Settings.isValidSettingsObject.
  cbn [Settings.not_plain_object typeof type_tag_eqb negb is_null isArray orb].
  assert (Hwf : Settings.categories_well_formed ((k, v) :: settings)
                = Settings.categories_well_formed settings).
  { unfold Settings.categories_well_formed. cbn [keys map fst forallb].
    rewrite Hk. cbn [negb andb].
    apply forallb_same. intros key.
    destruct (includes_str Settings.categories key) eqn:Hkey; cbn [negb];
      [| reflexivity].
    rewrite Hprop; [reflexivity |].
    unfold includes_str in Hkey. apply existsb_exists in Hkey.
    destruct Hkey as (x & Hin & Heq). apply String.eqb_eq in Heq. subst x.
    exact Hin. }
  rewrite Hwf.
  rewrite !Hprop by (cbn; tauto).
  reflexivity.
Qed.

Lemma unknown_category_ignored_witness :
  Settings.isValidSettingsObject
    (VObj (("experimental", VNull) :: [("network", VObj [])]))
  = Settings.isValidSettingsObject (VObj [("network", VObj [])]).
Proof.
  apply (unknown_category_ignored "experimental" VNull [("network", VObj [])]).
  reflexivity.
Defined.

(** [loadSettings] reads the disk once: whatever the first call did, a
    second call returns the cached settings and leaves cache and disk
    as they are; when the first call returned, it returned those same
    settings. *)
Theorem second_load_reads_cache (w : Settings.world) :
  exists s,
    Settings.loadSettings (snd (Settings.loadSettings w))
    = (Ok s, snd (Settings.loadSettings w))
    /\ forall s0, fst (Settings.loadSettings w) = Ok s0 -> s0 = s.
Proof.
  destruct (load_fills_cache w) as (s & Hcache & Hsame).
  exists s. split; [apply load_from_cache; exact Hcache | exact Hsame].
Qed.

(** [saveSettings] is all or nothing: either the file holds the new
    settings, no temporary file is left and the cache is the saved
    object, or file and cache are both what they were. *)
Theorem saveSettings_all_or_nothing (s : Settings.AppSettings) (w : Settings.world) :
  let w' := snd (Settings.saveSettings s w) in
  (Settings.settingsFile w'
   = Some (Settings.Json (Settings.to_json (Settings.settings_value s)))
   /\ Settings.tempFile w' = None
   /\ Settings.settingsCache w' = Some s)
  \/ (Settings.settingsFile w' = Settings.settingsFile w
      /\ Settings.settingsCache w' = Settings.settingsCache w).
Proof.
  cbv zeta. unfold Settings.saveSettings.
  destruct (negb (Settings.dirExists w) && Settings.mkdirFails w);
    [right; split; reflexivity |].
  cbn [Settings.writeFails Settings.renameFails Settings.with_dir
       Settings.with_files].
  destruct (Settings.writeFails w); [right; split; reflexivity |].
  destruct (Settings.renameFails w); [right; split; reflexivity |].
  left. repeat split.
Qed.

(** A first load never returns one of the two old theme names: it
    returns the defaults, or a merge whose theme is not an old name, or
    the merge with the old name replaced. *)
Theorem load_never_returns_legacy_theme (w : Settings.world)
  (s : Settings.AppSettings) :
  Settings.settingsCache w = None ->
  fst (Settings.loadSettings w) = Ok s ->
  Settings.is_str (prop (Settings.appearance s) "theme") "midnight-blue" = false
  /\ Settings.is_str (prop (Settings.appearance s) "theme") "canard-yellow" = false.
Proof.
  intros Hcache. unfold Settings.loadSettings. rewrite Hcache.
  unfold Settings.save_in_try, Settings.load_failed.
  break_matches; cbn [fst]; intros H; try discriminate H; injection H as <-;
    cbn [Settings.appearance Settings.with_theme];
    rewrite ?prop_set_same;
    first [ split; reflexivity | split; assumption ].
Qed.

Lemma load_never_returns_legacy_theme_witness :
  Settings.is_str
    (prop (Settings.appearance
             (Settings.with_theme "resistance-dog"
                (Settings.getDefaultSettings "/home/user/.config/tonnet/storage")))
       "theme") "midnight-blue" = false
  /\ Settings.is_str
       (prop (Settings.appearance
                (Settings.with_theme "resistance-dog"
                   (Settings.getDefaultSettings "/home/user/.config/tonnet/storage")))
          "theme") "canard-yellow" = false.
Proof.
  apply (load_never_returns_legacy_theme
           (Scenarios.fresh_world (Some (Settings.Json Scenarios.legacy_document))));
    reflexivity.
Defined.

(** On a healthy disk, a first load of a valid document merges it over
    the defaults field by field: a field the file gives has the file's
    value, any other field has its default.  The one exception is
    [appearance.theme], which the migration of old names may rewrite. *)
Theorem loaded_fields_merge_file_over_defaults (w : Settings.world)
  (settings : object) :
  Settings.settingsCache w = None ->
  Settings.settingsFile w = Some (Settings.Json (VObj settings)) ->
  Settings.isValidSettingsObject (VObj settings) = true ->
  Settings.healthy w ->
  let defaults := Settings.getDefaultSettings (Settings.defaultStoragePath w) in
  exists s,
    fst (Settings.loadSettings w) = Ok s
    /\ forall c k,
        (c, k) <> (Settings.Appearance, "theme") ->
        (forall fields,
            prop settings (Settings.name_of c) = VObj fields ->
            NoDup (keys fields) ->
            prop (Settings.category_object c s) k =
              match lookup k fields with
              | Some v => v
              | None => prop (Settings.category_object c defaults) k
              end)
        /\ (lookup (Settings.name_of c) settings = None ->
            prop (Settings.category_object c s) k
            = prop (Settings.category_object c defaults) k).
Proof.
  intros Hcache Hfile Hvalid (Hdir & Hread & Hwrite & Hrename) defaults.
  assert (Hmk : negb (Settings.dirExists w) && Settings.mkdirFails w = false).
  { destruct Hdir as [-> | ->]; [reflexivity | apply andb_false_r]. }
  unfold Settings.loadSettings. rewrite Hcache, Hfile, Hread, Hvalid.
  cbn [negb]. unfold Settings.save_in_try, Settings.saveSettings.
  cbn [Settings.dirExists Settings.mkdirFails Settings.writeFails
       Settings.renameFails Settings.with_cache Settings.with_dir
       Settings.with_files].
  rewrite Hmk, Hwrite, Hrename.
  assert (Hlaw : forall d name k fields,
             prop settings name = VObj fields -> NoDup (keys fields) ->
             prop (Settings.merge_category d (get (VObj settings) name)) k =
               match lookup k fields with Some v => v | None => prop d k end).
  { intros d name k fields Hf Hnd. cbn [get]. rewrite Hf.
    apply merge_category_prop. exact Hnd. }
  assert (Habsent : forall d name,
             lookup name settings = None ->
             Settings.merge_category d (get (VObj settings) name) = d).
  { intros d name Hnone. cbn [get]. unfold prop. rewrite Hnone. reflexivity. }
  break_matches; cbn [fst]; eexists; (split; [reflexivity |]);
    intros c k Hck;
    (split; [intros fields Hf Hnd | intros Hnone]);
    destruct c;
    cbn [Settings.category_object Settings.with_theme Settings.general
         Settings.network Settings.storage Settings.appearance
         Settings.privacy Settings.advanced Settings.name_of] in *;
    try (rewrite prop_set_other by (intros ->; apply Hck; reflexivity));
    first [ apply Hlaw; assumption | rewrite Habsent by assumption; reflexivity ].
Qed.

Lemma loaded_fields_merge_file_over_defaults_witness :
  exists s,
    fst (Settings.loadSettings
           (Scenarios.fresh_world (Some (Settings.Json Scenarios.custom_port_document))))
    = Ok s
    /\ forall c k,
        (c, k) <> (Settings.Appearance, "theme") ->
        (forall fields,
            prop [("network", VObj [("proxyPort", VNum (of_Z 9050))])]
              (Settings.name_of c) = VObj fields ->
            NoDup (keys fields) ->
            prop (Settings.category_object c s) k =
              match lookup k fields with
              | Some v => v
              | None => prop (Settings.category_object c Scenarios.defaults) k
              end)
        /\ (lookup (Settings.name_of c)
              [("network", VObj [("proxyPort", VNum (of_Z 9050))])] = None ->
            prop (Settings.category_object c s) k
            = prop (Settings.category_object c Scenarios.defaults) k).
Proof.
  apply (loaded_fields_merge_file_over_defaults
           (Scenarios.fresh_world (Some (Settings.Json Scenarios.custom_port_document)))
           [("network", VObj [("proxyPort", VNum (of_Z 9050))])]);
    try reflexivity.
  repeat split; try reflexivity. left; reflexivity.
Defined.

(** Reset, then a later run: on a healthy disk [resetSettings] writes
    the defaults, and the first load of the next run returns exactly
    the defaults. *)
Theorem reset_then_next_run_loads_defaults (w : Settings.world) :
  Settings.healthy w ->
  let defaults := Settings.getDefaultSettings (Settings.defaultStoragePath w) in
  let w1 := snd (Settings.resetSettings w) in
  Settings.settingsFile w1
  = Some (Settings.Json (Settings.to_json (Settings.settings_value defaults)))
  /\ fst (Settings.loadSettings (Settings.next_run w1)) = Ok defaults.
Proof.
  intros (Hdir & Hread & Hwrite & Hrename) defaults w1.
  assert (Hmk : negb (Settings.dirExists w) && Settings.mkdirFails w = false).
  { destruct Hdir as [-> | ->]; [reflexivity | apply andb_false_r]. }
  subst w1 defaults. unfold Settings.resetSettings, Settings.saveSettings.
  cbn [Settings.writeFails Settings.renameFails Settings.with_dir
       Settings.with_files].
  rewrite Hmk, Hwrite, Hrename. cbn [snd]. split; [reflexivity |].
  unfold Settings.loadSettings, Settings.next_run.
  cbn [Settings.settingsCache Settings.settingsFile Settings.readFails
       Settings.with_cache Settings.with_dir Settings.with_files
       Settings.defaultStoragePath].
  rewrite Hread. reflexivity.
Qed.

Lemma reset_then_next_run_loads_defaults_witness :
  Settings.settingsFile (snd (Settings.resetSettings Scenarios.bad_port_world))
  = Some (Settings.Json (Settings.to_json (Settings.settings_value Scenarios.defaults)))
  /\ fst (Settings.loadSettings
            (Settings.next_run (snd (Settings.resetSettings Scenarios.bad_port_world))))
     = Ok Scenarios.defaults.
Proof.
  apply (reset_then_next_run_loads_defaults Scenarios.bad_port_world).
  repeat split; left; reflexivity.
Defined.

(** [setSetting] then [getSetting]: once the settings load, the
    category set reads back as its old content with the new values
    spread over it and the other categories read back unchanged, also
    when the write to disk fails, since the cached object itself is
    updated. *)
Theorem setSetting_then_getSetting (c : Settings.category_name)
  (values : object) (w : Settings.world) (s : Settings.AppSettings) :
  fst (Settings.loadSettings w) = Ok s ->
  let w' := snd (Settings.setSetting c values w) in
  fst (Settings.getSetting (Settings.name_of c) w')
  = Ok (VObj (spread (Settings.category_object c s) values))
  /\ forall c', c' <> c ->
       fst (Settings.getSetting (Settings.name_of c') w')
       = Ok (VObj (Settings.category_object c' s)).
Proof.
  intros Hload w'.
  set (updated := Settings.with_category c
                    (spread (Settings.category_object c s) values) s).
  assert (Hcache : Settings.settingsCache w' = Some updated).
  { subst w'. unfold Settings.setSetting.
    destruct (Settings.loadSettings w) as [[s0 | e] w1]; [| discriminate Hload].
    cbn [fst] in Hload. injection Hload as ->.
    apply save_keeps_cached. reflexivity. }
  unfold Settings.getSetting.
  rewrite (load_from_cache updated w' Hcache).
  split.
  - destruct c; reflexivity.
  - intros c' Hne. destruct c, c'; try reflexivity; contradiction.
Qed.

Lemma setSetting_then_getSetting_witness :
  fst (Settings.getSetting "network"
         (snd (Settings.setSetting Settings.Network
                 [("proxyPort", VNum (of_Z 9050))] Scenarios.garbage_world)))
  = Ok (VObj (spread (Settings.network Scenarios.defaults)
                [("proxyPort", VNum (of_Z 9050))]))
  /\ forall c', c' <> Settings.Network ->
       fst (Settings.getSetting (Settings.name_of c')
              (snd (Settings.setSetting Settings.Network
                      [("proxyPort", VNum (of_Z 9050))] Scenarios.garbage_world)))
       = Ok (VObj (Settings.category_object c' Scenarios.defaults)).
Proof.
  apply (setSetting_then_getSetting Settings.Network
           [("proxyPort", VNum (of_Z 9050))] Scenarios.garbage_world
           Scenarios.defaults).
  reflexivity.
Defined.

(** ** Process managers: stopping, exiting, polling *)

(** [stop()] is idempotent for both managers, and on a manager that
    holds no process it emits nothing and leaves the status or running
    flag as it is. *)
Theorem stop_idempotent_and_silent :
  (forall m : ProxyManager.t,
      ProxyManager.stop (ProxyManager.stop m) = ProxyManager.stop m
      /\ (ProxyManager.process m = None ->
          ProxyManager.emitted (ProxyManager.stop m) = ProxyManager.emitted m
          /\ ProxyManager.status (ProxyManager.stop m) = ProxyManager.status m))
  /\ (forall m : StorageManager.t,
      StorageManager.stop (StorageManager.stop m) = StorageManager.stop m
      /\ (StorageManager.process m = None ->
          StorageManager.emitted (StorageManager.stop m) = StorageManager.emitted m
          /\ StorageManager.isRunning (StorageManager.stop m)
             = StorageManager.isRunning m)).
Proof.
  split; intros m; destruct m as [process]; destruct process;
    (split; [reflexivity | intros H; first [discriminate H | split; reflexivity]]).
Qed.

(** The exit of the child does the cleanup of a stop: while the
    listeners are attached, the exit event clears the handle and the
    timer, sets the status to stopped (the running flag to false and
    the client to none for storage), and a [stop()] after it changes
    nothing and emits nothing. *)
Theorem exit_cleans_up_like_stop (code : option Z) :
  (forall m : ProxyManager.t,
      ProxyManager.attached m = true ->
      let m' := ProxyManager.deliver (ChildProcess.ExitEvent code) m in
      ProxyManager.process m' = None
      /\ ProxyManager.status m' = ProxyManager.Stopped
      /\ ProxyManager.syncCheckInterval m' = None
      /\ ProxyManager.stop m' = m')
  /\ (forall m : StorageManager.t,
      StorageManager.attached m = true ->
      let m' := StorageManager.deliver (ChildProcess.ExitEvent code) m in
      StorageManager.process m' = None
      /\ StorageManager.client m' = None
      /\ StorageManager.isRunning m' = false
      /\ StorageManager.pollInterval m' = None
      /\ StorageManager.stop m' = m').
Proof.
  split; intros m Hatt m'; subst m'.
  - unfold ProxyManager.deliver. rewrite Hatt. repeat split.
  - unfold StorageManager.deliver. rewrite Hatt. repeat split.
Qed.



(** ** Circuit relays *)

Lemma relay_assign (i : nat) (x : string) :
  forall relays j,
    ProxyManager.relay j (ProxyManager.assign i x relays)
    = if Nat.eqb i j then Some x else ProxyManager.relay j relays.
Proof.
  unfold ProxyManager.relay.
  induction i as [| i IH]; intros relays j.
  - destruct relays as [| r rest], j as [| j]; try reflexivity.
    cbn. destruct j; reflexivity.
  - destruct relays as [| r rest], j as [| j]; cbn [ProxyManager.assign nth Nat.eqb];
      try reflexivity.
    + rewrite IH. destruct (Nat.eqb i j); [reflexivity | destruct j; reflexivity].
    + apply IH.
Qed.

(** The three relay names fill in independently: after a line of
    output each slot holds the name the line gives for it, or what it
    held before when the line gives none, whatever the other slots
    do. *)
Theorem relays_fill_independently (message : string)
  (relays : list (option string)) :
  let after := ProxyManager.parse_relays message relays in
  ProxyManager.relay 0 after
  = match ChildProcess.match_label "Entry:" message with
    | Some x => Some x
    | None => ProxyManager.relay 0 relays
    end
  /\ ProxyManager.relay 1 after
     = match ChildProcess.match_label "Middle:" message with
       | Some x => Some x
       | None => ProxyManager.relay 1 relays
       end
  /\ ProxyManager.relay 2 after
     = match ChildProcess.match_label "Exit:" message with
       | Some x => Some x
       | None => ProxyManager.relay 2 relays
       end.
Proof.
  cbv zeta. unfold ProxyManager.parse_relays, ProxyManager.assign_match.
  destruct (ChildProcess.match_label "Entry:" message),
    (ChildProcess.match_label "Middle:" message),
    (ChildProcess.match_label "Exit:" message);
    rewrite ?relay_assign; cbn [Nat.eqb]; repeat split.
Qed.

(** ** Process managers: readiness and ports *)

Section ProxyStartFacts.

Import ChildProcess ProxyManager.

Lemma proxy_deliver_keeps_port (ev : event) (m : t) :
  port (deliver ev m) = port m.
Proof.
  unfold deliver. destruct (attached m); [| reflexivity].
  destruct ev; cbn [on_event]; break_matches; reflexivity.
Qed.

(** The wait resolves exactly when a chunk of standard output carries
    the marker; the events themselves never touch the port. *)
Lemma await_marker_outcome (evs : list event) :
  forall m,
    fst (await_marker evs m)
    = (if existsb is_marker evs then Ok tt else Throw timeout_error)
    /\ port (snd (await_marker evs m)) = port m.
Proof.
  induction evs as [| ev evs IH]; intros m; [split; reflexivity |].
  cbn [await_marker existsb].
  destruct (IH (deliver ev m)) as [Hres Hport].
  rewrite proxy_deliver_keeps_port in Hport.
  destruct ev as [data | data | code | message]; cbn [is_marker orb];
    try (split; assumption).
  destruct (str_includes data "Proxy listening"); cbn [orb fst snd].
  - split; [reflexivity | apply proxy_deliver_keeps_port].
  - split; assumption.
Qed.

Lemma start_outcome (env : start_env) (m : t) :
  process m = None ->
  fst (start env m)
  = (if existsb is_marker (before_timeout env) then Ok tt else Throw timeout_error)
  /\ (fst (start env m) = Ok tt ->
      status (snd (start env m)) = Syncing
      /\ syncCheckInterval (snd (start env m)) <> None)
  /\ port (snd (start env m)) = prop (Settings.network (settings env)) "proxyPort".
Proof.
  intros Hp. unfold start, waitForReady. rewrite Hp.
  match goal with
  | |- context [await_marker ?evs ?m0] =>
      destruct (await_marker_outcome evs m0) as [Hres Hport];
      destruct (await_marker evs m0) as [[[] | e] m1]
  end; cbn [fst snd] in *.
  - split; [exact Hres |]. split; [| reflexivity].
    intros _. split; [reflexivity | discriminate].
  - split; [exact Hres |]. split; [discriminate | exact Hport].
Qed.

End ProxyStartFacts.

(** [start()] on a proxy manager without a handle resolves exactly when
    a chunk of the child's standard output holds [Proxy listening]
    before the timer fires, and rejects with the timeout error
    otherwise (the marker on standard error does not count); when it
    resolves, the status is syncing and the sync timer runs. *)
Theorem proxy_start_resolves_on_marker (env : ProxyManager.start_env)
  (m : ProxyManager.t) :
  ProxyManager.process m = None ->
  fst (ProxyManager.start env m)
  = (if existsb ProxyManager.is_marker (ProxyManager.before_timeout env)
     then Ok tt else Throw ProxyManager.timeout_error)
  /\ (fst (ProxyManager.start env m) = Ok tt ->
      ProxyManager.status (snd (ProxyManager.start env m)) = ProxyManager.Syncing
      /\ ProxyManager.syncCheckInterval (snd (ProxyManager.start env m)) <> None).
Proof.
  intros Hp. destruct (start_outcome env m Hp) as (H1 & H2 & _).
  split; assumption.
Qed.

Lemma proxy_start_resolves_on_marker_witness :
  fst (ProxyManager.start Scenarios.proxy_ready ProxyManager.new)
  = (if existsb ProxyManager.is_marker
          (ProxyManager.before_timeout Scenarios.proxy_ready)
     then Ok tt else Throw ProxyManager.timeout_error)
  /\ (fst (ProxyManager.start Scenarios.proxy_ready ProxyManager.new) = Ok tt ->
      ProxyManager.status
        (snd (ProxyManager.start Scenarios.proxy_ready ProxyManager.new))
      = ProxyManager.Syncing
      /\ ProxyManager.syncCheckInterval
           (snd (ProxyManager.start Scenarios.proxy_ready ProxyManager.new))
         <> None).
Proof.
  apply (proxy_start_resolves_on_marker Scenarios.proxy_ready ProxyManager.new).
  reflexivity.
Defined.


(** The proxy is told to listen on the validated port, but the port
    the manager keeps after [start()], which [getStatus()] reports, is
    the [proxyPort] setting as it is, because [waitForReady] loads the
    settings again; the two agree when the setting is a valid port. *)
Theorem proxy_port_after_start (env : ProxyManager.start_env)
  (m : ProxyManager.t) :
  ProxyManager.process m = None ->
  existsb ChildProcess.is_exit (ProxyManager.before_timeout env) = false ->
  let raw := prop (Settings.network (ProxyManager.settings env)) "proxyPort" in
  let m' := snd (ProxyManager.start env m) in
  (exists h,
      ProxyManager.process m' = Some h
      /\ ChildProcess.address_port (ChildProcess.args h)
         = Some (Validators.validatePort raw Validators.defaultPort))
  /\ ProxyManager.status_port (ProxyManager.getStatus m') = raw
  /\ (Validators.port_in_range raw ->
      VNum (Validators.validatePort raw Validators.defaultPort) = raw).
Proof.
  intros Hp Hquiet raw m'.
  destruct (start_outcome env m Hp) as (_ & _ & Hport).
  split; [| split; [exact Hport | apply validatePort_keeps]].
  subst m'. unfold ProxyManager.start, ProxyManager.waitForReady. rewrite Hp.
  match goal with
  | |- context [ProxyManager.await_marker ?evs ?m0] =>
      destruct (await_marker_keeps_handle evs Hquiet m0) as (Hproc & _);
      destruct (ProxyManager.await_marker evs m0) as [[u | e] m1]
  end; cbn [snd ProxyManager.process ProxyManager.startSyncCheck
            ProxyManager.loadSettings ProxyManager.set_interval
            ProxyManager.set_port ProxyManager.setStatus ProxyManager.emit] in *;
    rewrite Hproc; cbn [ProxyManager.process ProxyManager.loadSettings
                        ProxyManager.set_port ProxyManager.set_process];
    eexists; (split; [reflexivity |]);
    cbn [ChildProcess.args ChildProcess.spawn];
    destruct (truthy _); reflexivity.
Qed.

Lemma proxy_port_after_start_witness :
  let raw := prop (Settings.network Scenarios.defaults) "proxyPort" in
  let m' := snd (ProxyManager.start Scenarios.proxy_ready ProxyManager.new) in
  (exists h,
      ProxyManager.process m' = Some h
      /\ ChildProcess.address_port (ChildProcess.args h)
         = Some (Validators.validatePort raw Validators.defaultPort))
  /\ ProxyManager.status_port (ProxyManager.getStatus m') = raw
  /\ (Validators.port_in_range raw ->
      VNum (Validators.validatePort raw Validators.defaultPort) = raw).
Proof.
  apply (proxy_port_after_start Scenarios.proxy_ready ProxyManager.new);
    reflexivity.
Defined.

Section StorageStartFacts.

Import ChildProcess StorageManager.

Lemma storage_deliver_keeps_port (ev : event) (m : t) :
  port (deliver ev m) = port m.
Proof.
  unfold deliver. destruct (attached m); [| reflexivity].
  destruct ev; cbn [on_event]; break_matches; reflexivity.
Qed.

Lemma storage_deliver_all_keeps_port (evs : list event) :
  forall m, port (deliver_all evs m) = port m.
Proof.
  unfold deliver_all.
  induction evs as [| ev evs IH]; intros m; [reflexivity |].
  cbn [fold_left]. rewrite IH. apply storage_deliver_keeps_port.
Qed.

Lemma waitForReady_keeps_port (rounds : nat -> attempt) (left : nat) :
  forall i m, port (snd (waitForReady left i rounds m)) = port m.
Proof.
  induction left as [| left IH]; intros i m; cbn [waitForReady]; [reflexivity |].
  destruct (client m) as [c |]; [| reflexivity].
  destruct (HttpClient.ping c (ping_network (rounds i))) as [[|] | e];
    cbn [snd]; rewrite ?IH, ?storage_deliver_all_keeps_port; reflexivity.
Qed.


End StorageStartFacts.



(** The storage daemon is told to listen on the validated port and the
    HTTP client is built for that same port on 127.0.0.1; the port the
    manager keeps is the validated one when [start()] rejects on
    readiness, and the [storagePort] setting as it is when [start()]
    resolves, because [startPolling] loads the settings again. *)
Theorem storage_port_after_start (env : StorageManager.start_env)
  (m : StorageManager.t) :
  StorageManager.process m = None ->
  StorageManager.mkdir_error env = None ->
  (forall i, (i < 30)%nat ->
             StorageManager.calm (StorageManager.rounds env i) = true) ->
  let raw := prop (Settings.network (StorageManager.settings env)) "storagePort" in
  let safe := Validators.validatePort raw Validators.storageDefaultPort in
  let m' := snd (StorageManager.start env m) in
  (exists h,
      StorageManager.process m' = Some h
      /\ ChildProcess.address_port (ChildProcess.args h) = Some safe)
  /\ StorageManager.client m'
     = Some {| HttpClient.host := "127.0.0.1"; HttpClient.port := safe;
               HttpClient.auth := None |}
  /\ StorageManager.status_port (StorageManager.getStatus m')
     = (if throws (fst (StorageManager.start env m)) then VNum safe else raw).
Proof.
  intros Hp Hmkdir Hcalm raw safe m'. subst m'.
  unfold StorageManager.start. rewrite Hp, Hmkdir.
  match goal with
  | |- context [StorageManager.waitForReady 30 0 ?r ?m0] =>
      destruct (waitForReady_keeps_handle r 30 0 m0) as (Hproc & Hclient & _);
      [intros j Hj; apply Hcalm; lia |];
      pose proof (waitForReady_keeps_port r 30 0 m0) as Hport;
      destruct (StorageManager.waitForReady 30 0 r m0) as [[u | e] m1]
  end; cbn [fst snd throws] in *.
  - repeat split.
    + cbn. rewrite Hproc. eexists. split; reflexivity.
    + cbn. rewrite Hclient. reflexivity.
  - repeat split.
    + rewrite Hproc. eexists. split; reflexivity.
    + rewrite Hclient. reflexivity.
    + cbn [StorageManager.getStatus StorageManager.status_port]. rewrite Hport.
      reflexivity.
Qed.

Lemma storage_port_after_start_witness :
  let raw := prop (Settings.network Scenarios.defaults) "storagePort" in
  let safe := Validators.validatePort raw Validators.storageDefaultPort in
  let m' :=
    snd (StorageManager.start (Scenarios.storage_env Scenarios.unreachable)
           Scenarios.fresh_storage) in
  (exists h,
      StorageManager.process m' = Some h
      /\ ChildProcess.address_port (ChildProcess.args h) = Some safe)
  /\ StorageManager.client m'
     = Some {| HttpClient.host := "127.0.0.1"; HttpClient.port := safe;
               HttpClient.auth := None |}
  /\ StorageManager.status_port (StorageManager.getStatus m')
     = (if throws (fst (StorageManager.start
                          (Scenarios.storage_env Scenarios.unreachable)
                          Scenarios.fresh_storage))
        then VNum safe else raw).
Proof.
  apply (storage_port_after_start (Scenarios.storage_env Scenarios.unreachable)
           Scenarios.fresh_storage); reflexivity.
Defined.

(** ** Storage handlers *)

(** The add-bag handler never throws and always spends one check of the
    rate limiter.  A request over the limit is answered "Rate limited"
    and one with a malformed identifier is answered with the format
    error, in both cases without looking at the manager or the daemon;
    any error of the manager comes back as a failed reply. *)
Theorem add_bag_handler_gates (now : Z)
  (net : HttpClient.network HttpClient.OkResult) (bagId : value)
  (limiter : Validation.RateLimiter) (m : StorageManager.t) :
  snd (Handlers.storage_add_bag now net bagId limiter m)
  = snd (Validation.check now limiter)
  /\ exists r,
       fst (Handlers.storage_add_bag now net bagId limiter m) = Ok r
       /\ (fst (Validation.check now limiter) = false ->
           r = Handlers.failed "Rate limited")
       /\ (fst (Validation.check now limiter) = true ->
           Validation.isValidBagId bagId = false ->
           r = Handlers.failed "Invalid bag ID format (must be 64 hex characters)")
       /\ (forall e,
              StorageManager.addBag net (Handlers.as_string bagId) None m = Throw e ->
              Handlers.success r = Some false).
Proof.
  unfold Handlers.storage_add_bag.
  destruct (Validation.check now limiter) as [[|] limiter']; cbn [fst snd negb].
  - destruct (Validation.isValidBagId bagId); cbn [negb].
    + destruct (StorageManager.addBag net (Handlers.as_string bagId) None m)
        as [bag | e0]; cbn [fst snd]; (split; [reflexivity |]);
        eexists; (split; [reflexivity |]); repeat split;
        try discriminate; intros e He; first [discriminate He | reflexivity].
    + cbn [fst snd]. split; [reflexivity |].
      eexists. split; [reflexivity |]. repeat split; try discriminate.
  - cbn [fst snd]. split; [reflexivity |].
    eexists. split; [reflexivity |]. repeat split; try discriminate.
Qed.

(** With no daemon running and a well-formed identifier, the handlers
    differ: add (when the limiter allows the call) and details answer
    [{success: false, error: 'Storage daemon not running'}], list
    answers success with no bags, resume answers [{success: false}],
    while remove and pause are not guarded and reject with the
    error. *)
Theorem handlers_without_daemon (now : Z) (bagId : value)
  (limiter : Validation.RateLimiter) (m : StorageManager.t)
  (ok_net : HttpClient.network HttpClient.OkResult)
  (list_net : HttpClient.network HttpClient.ListResult)
  (details_net : HttpClient.network HttpClient.BagDetails) :
  StorageManager.client m = None ->
  Validation.isValidBagId bagId = true ->
  fst (Validation.check now limiter) = true ->
  fst (Handlers.storage_add_bag now ok_net bagId limiter m)
  = Ok (Handlers.failed "Storage daemon not running")
  /\ Handlers.storage_get_details details_net bagId m
     = Ok (Handlers.failed "Storage daemon not running")
  /\ Handlers.storage_list_bags list_net m = Ok (Handlers.succeeded [])
  /\ Handlers.storage_resume_bag bagId = Ok (Handlers.flagged (Some false))
  /\ Handlers.storage_remove_bag ok_net bagId m = Throw "Storage daemon not running"
  /\ Handlers.storage_pause_bag ok_net bagId m = Throw "Storage daemon not running".
Proof.
  intros Hclient Hvalid Hallowed.
  unfold Handlers.storage_add_bag, Handlers.storage_get_details,
    Handlers.storage_list_bags, Handlers.storage_resume_bag,
    Handlers.storage_remove_bag, Handlers.storage_pause_bag,
    StorageManager.addBag, StorageManager.getBagDetails, StorageManager.listBags,
    StorageManager.removeBag, StorageManager.pauseBag.
  rewrite Hclient, Hvalid.
  destruct (Validation.check now limiter) as [allowed limiter'].
  cbn [fst] in Hallowed. subst allowed. repeat split.
Qed.

Lemma handlers_without_daemon_witness :
  fst (Handlers.storage_add_bag 0 Scenarios.unreachable
         (VStr Scenarios.valid_bag_id) (Validation.new_RateLimiter 10 1000)
         Scenarios.fresh_storage)
  = Ok (Handlers.failed "Storage daemon not running")
  /\ Handlers.storage_get_details Scenarios.unreachable
       (VStr Scenarios.valid_bag_id) Scenarios.fresh_storage
     = Ok (Handlers.failed "Storage daemon not running")
  /\ Handlers.storage_list_bags Scenarios.unreachable Scenarios.fresh_storage
     = Ok (Handlers.succeeded [])
  /\ Handlers.storage_resume_bag (VStr Scenarios.valid_bag_id)
     = Ok (Handlers.flagged (Some false))
  /\ Handlers.storage_remove_bag Scenarios.unreachable
       (VStr Scenarios.valid_bag_id) Scenarios.fresh_storage
     = Throw "Storage daemon not running"
  /\ Handlers.storage_pause_bag Scenarios.unreachable
       (VStr Scenarios.valid_bag_id) Scenarios.fresh_storage
     = Throw "Storage daemon not running".
Proof.
  apply (handlers_without_daemon 0 (VStr Scenarios.valid_bag_id)
           (Validation.new_RateLimiter 10 1000) Scenarios.fresh_storage
           Scenarios.unreachable Scenarios.unreachable Scenarios.unreachable);
    reflexivity.
Defined.

(** ** Bag names *)

(** The display name of a mapped bag is never empty: it is the
    description, else the directory name, else a label made of the
    first eight characters of the identifier. *)
Theorem mapBagInfo_name_never_empty (info : HttpClient.BagInfo) :
  StorageManager.name (StorageManager.mapBagInfo info) <> ""
  /\ (HttpClient.description info <> "" ->
      StorageManager.name (StorageManager.mapBagInfo info)
      = HttpClient.description info)
  /\ (HttpClient.description info = "" -> HttpClient.dir_name info <> "" ->
      StorageManager.name (StorageManager.mapBagInfo info)
      = HttpClient.dir_name info)
  /\ (HttpClient.description info = "" -> HttpClient.dir_name info = "" ->
      StorageManager.name (StorageManager.mapBagInfo info)
      = "Bag " ++ String.substring 0 8 (HttpClient.bag_id info) ++ "...").
Proof.
  unfold StorageManager.mapBagInfo; cbn [StorageManager.name].
  unfold StorageManager.or_str, StorageManager.short_name.
  destruct (String.eqb (HttpClient.description info) "") eqn:Hd;
    destruct (String.eqb (HttpClient.dir_name info) "") eqn:Hn;
    rewrite ?String.eqb_eq, ?String.eqb_neq in *;
    repeat split; try discriminate; try assumption; try congruence;
    intros; congruence.
Qed.
